(** * internal/docs/component_markdown.go

    A shallow embedding of the markdown renderer of a component spec
    ([AsMarkdown]) and of the generator of its two example configurations
    ([genExampleConfigs], [createOrderedConfig]), followed by the properties
    the specification states about them.

    Conventions.
    - Go strings and byte slices are [string]s (sequences of bytes); a nil
      byte slice and an empty one are both [EmptyString].
    - A Go [error] is its message.
    - A Go function returning [(T, error)] returns a [result T]; a call that
      may panic yields an [outcome].
    - Everything [component_markdown.go] calls but does not define (the yaml
      and json encoders, [SanitiseYAML], [marshalYAML], the field-docs
      sub-template, ...) is gathered in the interface [Env]. *)

From Stdlib Require Import Bool Arith List.
From Stdlib Require Import Ascii String.
Import ListNotations.

Open Scope list_scope.
Open Scope string_scope.

Set Implicit Arguments.
Set Warnings "-register-all".

(* ------------------------------------------------------------------ *)
(** ** Strings *)

Definition nl : string := String (ascii_of_nat 10) EmptyString.
Definition dquote : string := String (ascii_of_nat 34) EmptyString.
Definition backticks : string := "```".

(** [strings.HasPrefix]. *)
Fixpoint strings_HasPrefix (s prefix : string) : bool :=
  match prefix, s with
  | EmptyString, _ => true
  | String _ _, EmptyString => false
  | String p prefix', String c s' => Ascii.eqb p c && strings_HasPrefix s' prefix'
  end.

(** [strings.Contains]. *)
Fixpoint strings_Contains (s substr : string) : bool :=
  strings_HasPrefix s substr ||
  match s with
  | EmptyString => false
  | String _ s' => strings_Contains s' substr
  end.

(** [len(s) > 0], and the template's [gt (len s) 0]. *)
Definition nonEmpty (s : string) : bool := (0 <? String.length s)%nat.

(** [if len(s) > 0 && s[0] == '\n' { s = s[1:] }]. *)
Definition dropLeadingNewline (s : string) : string :=
  match s with
  | String c s' => if Ascii.eqb c (ascii_of_nat 10) then s' else s
  | EmptyString => s
  end.

(** The concatenation of a list of strings. *)
Definition concatAll (l : list string) : string :=
  fold_right String.append EmptyString l.

(** Each string followed by a line break. *)
Definition unlines (l : list string) : string :=
  concatAll (map (fun s => s ++ nl) l).

(* ------------------------------------------------------------------ *)
(** ** Errors, results and panics *)

Definition error : Type := string.

Inductive result (A : Type) : Type :=
| Ok (a : A)
| Err (e : error).
Arguments Ok {A} a.
Arguments Err {A} e.

Inductive outcome (A : Type) : Type :=
| Returns (a : A)
| Panics (e : error).
Arguments Returns {A} a.
Arguments Panics {A} e.

(* ------------------------------------------------------------------ *)
(** ** Data model *)

(** [docs.Type], a string naming the kind of component (input, output...). *)
Definition CType : Type := string.

(** Modelled from the spec: the declaration of [FieldKind] and of its four
    constants is outside this file; the spec lists the kinds as scalar,
    mapping, sequence and sequence-of-sequences. *)
Inductive FieldKind : Type := KindScalar | KindArray | Kind2DArray | KindMap.

Definition FieldKind_eqb (a b : FieldKind) : bool :=
  match a, b with
  | KindScalar, KindScalar | KindArray, KindArray
  | Kind2DArray, Kind2DArray | KindMap, KindMap => true
  | _, _ => false
  end.

(** Modelled from the spec: the struct [FieldSpec] is declared outside this
    file.  Section 3 gives a field specification a name, a kind, the flags
    [IsAdvanced] and [IsDeprecated] and child field specifications; the
    declared order is the order of the list of children.  [Type_] is the
    field [Type] that line 232 assigns. *)
Module FieldSpec.
Inductive t : Type := Build {
  Name : string;
  Type_ : string;
  Kind : FieldKind;
  IsAdvanced : bool;
  IsDeprecated : bool;
  Children : list t
}.

Definition withTypeKind (f : t) (ty : string) (k : FieldKind) : t :=
  {| Name := Name f; Type_ := ty; Kind := k; IsAdvanced := IsAdvanced f;
     IsDeprecated := IsDeprecated f; Children := Children f |}.
End FieldSpec.

(** [FieldFilter]. *)
Definition FieldFilter : Type := FieldSpec.t -> bool.

(** [FieldSpecCtx], declared outside this file: the field [Spec], which
    lines 231-238 update, and [FullName], which stands for what the loop
    copies as it is. *)
Module FieldSpecCtx.
Record t : Type := Build {
  FullName : string;
  Spec : FieldSpec.t
}.
End FieldSpecCtx.

(** [AnnotatedExample], declared outside this file: the three fields the
    template reads. *)
Module AnnotatedExample.
Record t : Type := Build {
  Title : string;
  Summary : string;
  Config : string
}.
End AnnotatedExample.

(** [ComponentSpec], declared outside this file: the fields [AsMarkdown]
    reads. *)
Module ComponentSpec.
Record t : Type := Build {
  Name : string;
  Type_ : CType;
  Status : string;
  Summary : string;
  Description : string;
  Categories : list string;
  Footnotes : string;
  Config : FieldSpec.t;
  Examples : list AnnotatedExample.t;
  Version : string
}.

Definition withStatus (c : t) (s : string) : t :=
  {| Name := Name c; Type_ := Type_ c; Status := s; Summary := Summary c;
     Description := Description c; Categories := Categories c;
     Footnotes := Footnotes c; Config := Config c; Examples := Examples c;
     Version := Version c |}.
End ComponentSpec.

(** [componentContext], lines 13-27. *)
Module componentContext.
Record t : Type := Build {
  Name : string;
  Type_ : string;
  FrontMatterSummary : string;
  Summary : string;
  Description : string;
  Categories : string;
  Examples : list AnnotatedExample.t;
  Fields : list FieldSpecCtx.t;
  Footnotes : string;
  CommonConfig : string;
  AdvancedConfig : string;
  Status : string;
  Version : string
}.
End componentContext.

(** [yaml.Node], reduced to the tree it stands for. *)
Inductive node : Type :=
| ScalarNode (value : string)
| MappingNode (content : list (string * node))
| SequenceNode (items : list node).

(** What [genExampleConfigs] hands to [marshalYAML]: the node itself, or the
    one-entry map [map[string]any{string(t): node}]. *)
Inductive configValue : Type :=
| Bare (n : node)
| Nested (key : string) (n : node).

(** [SanitiseConfig], declared outside this file: the three settings
    [createOrderedConfig] assigns. *)
Module SanitiseConfig.
Record t : Type := Build {
  RemoveTypeField : bool;
  Filter : FieldFilter;
  ForExample : bool
}.

Definition withRemoveTypeField (conf : t) (b : bool) : t :=
  {| RemoveTypeField := b; Filter := Filter conf; ForExample := ForExample conf |}.

Definition withFilter (conf : t) (filter : FieldFilter) : t :=
  {| RemoveTypeField := RemoveTypeField conf; Filter := filter;
     ForExample := ForExample conf |}.

Definition withForExample (conf : t) (b : bool) : t :=
  {| RemoveTypeField := RemoveTypeField conf; Filter := Filter conf;
     ForExample := b |}.
End SanitiseConfig.

(** The output of a template run: what was written, and the error that
    stopped it, if any. *)
Definition written : Type := (string * option error)%type.

(* ------------------------------------------------------------------ *)
(** ** The rest of the package and the libraries *)

(** [any] is the type of raw example values (Go's [any]).
    - [yaml_Encode]: [Encode] of [yaml.Node].
    - [NewSanitiseConfig], [SanitiseYAML], [marshalYAML],
      [FlattenChildrenForDocs], [StatusStable]: package [docs].
    - [json_Marshal]: [encoding/json].
    - [field_docs]: the run of the sub-template of that name, which
      [FieldsTemplate(false)] defines. *)
Class Env (any : Type) : Type := {
  yaml_Encode : any -> result node;
  NewSanitiseConfig : SanitiseConfig.t;
  SanitiseYAML : CType -> node -> SanitiseConfig.t -> result node;
  marshalYAML : configValue -> result string;
  json_Marshal : list string -> result string;
  StatusStable : string;
  FlattenChildrenForDocs : FieldSpec.t -> list FieldSpecCtx.t;
  field_docs : componentContext.t -> written
}.

(* ------------------------------------------------------------------ *)
(** ** Template runs

    [Execute] writes into a buffer until the template ends or an action
    fails; what was written before a failure stays in the buffer. *)

Definition emit (s : string) : written := (s, None).

Definition andThen (a b : written) : written :=
  match a with
  | (out, None) => (out ++ fst b, snd b)
  | (out, Some e) => (out, Some e)
  end.

Notation "a >> b" := (andThen a b) (at level 61, right associativity).

(** [{{if cond}} body {{end}}]. *)
Definition when (cond : bool) (body : written) : written :=
  if cond then body else emit EmptyString.

(** The same for text without actions that can fail. *)
Definition whenText (cond : bool) (body : string) : string :=
  if cond then body else EmptyString.

(* ------------------------------------------------------------------ *)
(** ** The program *)

Section Program.
Context {any : Type} `{E : Env any}.

(** The two field filters, the closures of lines 163-165 and 168-170. *)
Definition advancedFilter : FieldFilter :=
  fun f => negb (FieldSpec.IsDeprecated f).

Definition commonFilter : FieldFilter :=
  fun f => negb (FieldSpec.IsAdvanced f) && negb (FieldSpec.IsDeprecated f).

(** [sanitConf] of lines 150-153. *)
Definition sanitConf (filter : FieldFilter) : SanitiseConfig.t :=
  let sanitConf := NewSanitiseConfig in
  let sanitConf := SanitiseConfig.withRemoveTypeField sanitConf true in
  let sanitConf := SanitiseConfig.withFilter sanitConf filter in
  SanitiseConfig.withForExample sanitConf true.

(** Lines 144-159. *)
Definition createOrderedConfig (t : CType) (rawExample : any)
    (filter : FieldFilter) : result node :=
  match yaml_Encode rawExample with
  | Err err => Err err
  | Ok newNode =>
      match SanitiseYAML t newNode (sanitConf filter) with
      | Err err => Err err
      | Ok newNode' => Ok newNode'
      end
  end.

(** [if nest { cfg = map[string]any{string(t): cfg} }]. *)
Definition nested (nest : bool) (t : CType) (cfg : node) : configValue :=
  if nest then Nested t cfg else Bare cfg.

(** Lines 161-189.  The result is [(commonConfigStr, advConfigStr, err)]. *)
Definition genExampleConfigs (t : CType) (nest : bool)
    (fullConfigExample : any) : outcome (string * string * option error) :=
  match createOrderedConfig t fullConfigExample advancedFilter with
  | Err err => Panics err
  | Ok advConfig =>
      match createOrderedConfig t fullConfigExample commonFilter with
      | Err err => Panics err
      | Ok commonConfig =>
          match marshalYAML (nested nest t advConfig) with
          | Err err => Panics err
          | Ok advancedConfigBytes =>
              match marshalYAML (nested nest t commonConfig) with
              | Err err => Panics err
              | Ok commonConfigBytes =>
                  Returns (commonConfigBytes, advancedConfigBytes, None)
              end
          end
      end
  end.

(** *** [componentTemplate], lines 29-142

    One definition per block of the template.  A right trim marker
    removes all white space that follows the action, which is why some
    line breaks of the source text are absent below. *)

Import componentContext.

(** Lines 30-39. *)
Definition frontMatter (ctx : componentContext.t) : string :=
  "---" ++ nl ++
  "title: " ++ Name ctx ++ nl ++
  "type: " ++ Type_ ctx ++ nl ++
  "status: " ++ Status ctx ++ nl ++
  whenText (nonEmpty (FrontMatterSummary ctx))
    ("description: " ++ dquote ++ FrontMatterSummary ctx ++ dquote ++ nl) ++
  whenText (nonEmpty (Categories ctx))
    ("categories: " ++ Categories ctx ++ nl) ++
  "---" ++ nl.

(** Lines 40-49. *)
Definition banner : string :=
  unlines
    [ EmptyString;
      "<!--";
      "     THIS FILE IS AUTOGENERATED!";
      EmptyString;
      "     To make changes please edit the corresponding source file under internal/impl/<provider>.";
      "-->";
      EmptyString;
      "import Tabs from '@theme/Tabs';";
      "import TabItem from '@theme/TabItem';";
      EmptyString ].

(** Lines 50-65. *)
Definition statusAdmonition (ctx : componentContext.t) : string :=
  whenText (Status ctx =? "beta")
    (unlines
       [ ":::caution BETA";
         "This component is mostly stable but breaking changes could still be made outside of major version releases if a fundamental problem with the component is found.";
         ":::" ]) ++
  whenText (Status ctx =? "experimental")
    (unlines
       [ ":::caution EXPERIMENTAL";
         "This component is experimental and therefore subject to change or removal outside of major version releases.";
         ":::" ]) ++
  whenText (Status ctx =? "deprecated")
    (unlines
       [ ":::warning DEPRECATED";
         "This component is deprecated and will be removed in the next major version release. Please consider moving onto [alternative components](#alternatives).";
         ":::" ]).

(** Lines 66-70. *)
Definition summarySection (ctx : componentContext.t) : string :=
  whenText (nonEmpty (Summary ctx)) (Summary ctx ++ nl) ++
  whenText (nonEmpty (Version ctx))
    (nl ++ "Introduced in version " ++ Version ctx ++ "." ++ nl) ++
  nl.

(** Lines 72-75: the single block. *)
Definition singleConfigBlock (config : string) : string :=
  backticks ++ "yml" ++ nl ++
  "# Config fields, showing default values" ++ nl ++
  config ++
  backticks ++ nl.

(** Lines 76-98: the two tabs. *)
Definition configTabs (common advanced : string) : string :=
  nl ++
  "<Tabs defaultValue=" ++ dquote ++ "common" ++ dquote ++ " values={[" ++ nl ++
  "  { label: 'Common', value: 'common', }," ++ nl ++
  "  { label: 'Advanced', value: 'advanced', }," ++ nl ++
  "]}>" ++ nl ++
  nl ++
  "<TabItem value=" ++ dquote ++ "common" ++ dquote ++ ">" ++ nl ++
  nl ++
  backticks ++ "yml" ++ nl ++
  "# Common config fields, showing default values" ++ nl ++
  common ++
  backticks ++ nl ++
  nl ++
  "</TabItem>" ++ nl ++
  "<TabItem value=" ++ dquote ++ "advanced" ++ dquote ++ ">" ++ nl ++
  nl ++
  backticks ++ "yml" ++ nl ++
  "# All config fields, showing default values" ++ nl ++
  advanced ++
  backticks ++ nl ++
  nl ++
  "</TabItem>" ++ nl ++
  "</Tabs>" ++ nl.

(** Lines 71-99. *)
Definition configSection (ctx : componentContext.t) : string :=
  if CommonConfig ctx =? AdvancedConfig ctx
  then singleConfigBlock (CommonConfig ctx)
  else configTabs (CommonConfig ctx) (AdvancedConfig ctx).

(** Lines 100-102, and the line break before line 103. *)
Definition descriptionSection (ctx : componentContext.t) : string :=
  whenText (nonEmpty (Description ctx)) (nl ++ Description ctx ++ nl) ++ nl.

(** Lines 104-106 and 134-136. *)
Definition fieldsSection (ctx : componentContext.t) : written :=
  emit ("## Fields" ++ nl ++ nl) >> field_docs ctx.

(** Line 114, once per example. *)
Definition exampleLabel (e : AnnotatedExample.t) : string :=
  "{ label: '" ++ AnnotatedExample.Title e ++ "', value: '" ++
  AnnotatedExample.Title e ++ "', }," ++ nl.

(** Lines 119-127, once per example. *)
Definition exampleTab (e : AnnotatedExample.t) : string :=
  "<TabItem value=" ++ dquote ++ AnnotatedExample.Title e ++ dquote ++ ">" ++ nl ++
  nl ++
  whenText (nonEmpty (AnnotatedExample.Summary e))
    (AnnotatedExample.Summary e ++ nl) ++
  nl ++
  whenText (nonEmpty (AnnotatedExample.Config e))
    (backticks ++ "yaml" ++ AnnotatedExample.Config e ++ backticks ++ nl) ++
  nl ++
  "</TabItem>" ++ nl.

(** Lines 109-131; [index .Examples 0] is under the guard
    [gt (len .Examples) 0]. *)
Definition examplesSection (ctx : componentContext.t) : string :=
  match Examples ctx with
  | [] => EmptyString
  | first :: _ =>
      "## Examples" ++ nl ++
      nl ++
      "<Tabs defaultValue=" ++ dquote ++ AnnotatedExample.Title first ++ dquote ++
      " values={[" ++ nl ++
      concatAll (map exampleLabel (Examples ctx)) ++
      "]}>" ++ nl ++
      nl ++
      concatAll (map exampleTab (Examples ctx)) ++
      "</Tabs>" ++ nl ++
      nl
  end.

(** Lines 139-142. *)
Definition footnotesSection (ctx : componentContext.t) : string :=
  whenText (nonEmpty (Footnotes ctx)) (Footnotes ctx ++ nl) ++ nl.

(** Everything the template writes before it reaches the config block. *)
Definition beforeConfig (ctx : componentContext.t) : string :=
  frontMatter ctx ++ banner ++ statusAdmonition ctx ++ summarySection ctx.

(** The run of [componentTemplate] on [ctx].  [FieldsTemplate(false)],
    which the source puts in front of the text, only defines the
    sub-template [field_docs].  The actions of lines 29-142 themselves
    select fields of [ctx], take lengths, compare, index under a length
    guard and range: none of them fails, so a run can only be stopped by
    [field_docs]. *)
Definition componentTemplate (ctx : componentContext.t) : written :=
  let n := List.length (Fields ctx) in
  emit (beforeConfig ctx) >>
  emit (configSection ctx) >>
  emit (descriptionSection ctx) >>
  when ((n <=? 4)%nat && (0 <? n)%nat) (fieldsSection ctx) >>
  emit (examplesSection ctx) >>
  when (4 <? n)%nat (fieldsSection ctx) >>
  emit (footnotesSection ctx).

(** [template.Must(template.New(...).Parse(componentTemplate)).Execute(&buf, ctx)]
    on an empty buffer: the final buffer and the error.  The text parsed is
    a constant, so [Must] has nothing to panic about. *)
Definition Execute (ctx : componentContext.t) : written :=
  componentTemplate ctx.

(** [fmt.Errorf] of line 195. *)
Definition summaryError (c : ComponentSpec.t) : error :=
  ComponentSpec.Type_ c ++ " component '" ++ ComponentSpec.Name c ++
  "' has a summary containing empty lines".

(** The body of the loop of lines 230-240, up to the [append]. *)
Definition displayField (v : FieldSpecCtx.t) : FieldSpecCtx.t :=
  let spec := FieldSpecCtx.Spec v in
  let ty :=
    if FieldKind_eqb (FieldSpec.Kind spec) KindMap then "object"
    else if FieldKind_eqb (FieldSpec.Kind spec) KindArray then "array"
    else if FieldKind_eqb (FieldSpec.Kind spec) Kind2DArray
         then "two-dimensional array"
    else FieldSpec.Type_ spec in
  {| FieldSpecCtx.FullName := FieldSpecCtx.FullName v;
     FieldSpecCtx.Spec := FieldSpec.withTypeKind spec ty KindScalar |}.

(** The loop of lines 229-240: [ctx.Fields] starts out nil. *)
Definition displayFields (flattenedFields : list FieldSpecCtx.t)
    : list FieldSpecCtx.t :=
  fold_left (fun fields v => (fields ++ [displayField v])%list)
            flattenedFields [].

(** Lines 212-215; the error of [json.Marshal] is dropped. *)
Definition categoriesText (categories : list string) : string :=
  match categories with
  | [] => EmptyString
  | _ :: _ =>
      match json_Marshal categories with
      | Ok cats => cats
      | Err _ => EmptyString
      end
  end.

(** The context [AsMarkdown] has built when it reaches line 242. *)
Definition renderContext (c : ComponentSpec.t) (commonConfig advancedConfig : string)
    : componentContext.t :=
  {| Name := ComponentSpec.Name c;
     Type_ := ComponentSpec.Type_ c;
     FrontMatterSummary := EmptyString;
     Summary := ComponentSpec.Summary c;
     Description := dropLeadingNewline (ComponentSpec.Description c);
     Categories := categoriesText (ComponentSpec.Categories c);
     Examples := ComponentSpec.Examples c;
     Fields := displayFields (FlattenChildrenForDocs (ComponentSpec.Config c));
     Footnotes := dropLeadingNewline (ComponentSpec.Footnotes c);
     CommonConfig := commonConfig;
     AdvancedConfig := advancedConfig;
     Status := if ComponentSpec.Status c =? EmptyString
               then StatusStable else ComponentSpec.Status c;
     Version := ComponentSpec.Version c |}.

(** Lines 197-245: what [AsMarkdown] does once the summary has passed the
    check of line 194. *)
Definition renderChecked (c : ComponentSpec.t) (nest : bool)
    (fullConfigExample : any) : outcome written :=
  match genExampleConfigs (ComponentSpec.Type_ c) nest fullConfigExample with
  | Panics p => Panics p
  | Returns (_, _, Some err) => Returns (EmptyString, Some err)
  | Returns (commonConfig, advancedConfig, None) =>
      Returns (Execute (renderContext c commonConfig advancedConfig))
  end.

(** Lines 193-246.  The result is [(bytes, err)]. *)
Definition AsMarkdown (c : ComponentSpec.t) (nest : bool)
    (fullConfigExample : any) : outcome written :=
  if strings_Contains (ComponentSpec.Summary c) (nl ++ nl)
  then Returns (EmptyString, Some (summaryError c))
  else renderChecked c nest fullConfigExample.
End Program.

(* ------------------------------------------------------------------ *)
(** ** The ordered example builder, from the specification

    [SanitiseYAML] is defined elsewhere in package [docs]. *)

Section OrderedExample.
(** The registry of field specifications: the fields of the component
    type [t]. *)
Variable fieldSpecs : CType -> list FieldSpec.t.
(** The name of the synthetic type-discriminator key. *)
Variable typeField : string.

(** Modelled from the spec: section 4.2 omits a field when the filter
    rejects it and it has no filtered-in descendant; a field is retained
    otherwise. *)
Fixpoint retained (filter : FieldFilter) (f : FieldSpec.t) : bool :=
  filter f ||
  match f with
  | FieldSpec.Build _ _ _ _ _ children => existsb (retained filter) children
  end.

Definition findSpec (name : string) (specs : list FieldSpec.t)
    : option FieldSpec.t :=
  find (fun f => FieldSpec.Name f =? name) specs.

Fixpoint lookupKey (key : string) (content : list (string * node))
    : option node :=
  match content with
  | [] => None
  | (k, v) :: rest => if k =? key then Some v else lookupKey key rest
  end.

(** Modelled from the spec: every mapping node loses the
    type-discriminator key when [RemoveTypeField] is set (section 4.2). *)
Definition dropTypeField (conf : SanitiseConfig.t)
    (content : list (string * node)) : list (string * node) :=
  if SanitiseConfig.RemoveTypeField conf
  then filter (fun kv => negb (fst kv =? typeField)) content
  else content.

(** Modelled from the spec: the retained fields in declared order, then
    the keys no field declares, in their original order (section 4.2). *)
Definition reorder (conf : SanitiseConfig.t) (specs : list FieldSpec.t)
    (content : list (string * node)) : list (string * node) :=
  (flat_map
     (fun f =>
        if retained (SanitiseConfig.Filter conf) f
        then match lookupKey (FieldSpec.Name f) content with
             | Some v => [(FieldSpec.Name f, v)]
             | None => []
             end
        else [])
     specs
   ++
   filter
     (fun kv =>
        match findSpec (fst kv) specs with
        | Some _ => false
        | None => true
        end)
     content)%list.

(** Modelled from the spec: the walk of [SanitiseYAML] (section 4.2,
    steps 2 and 3) over a node of kind [kind] whose fields are [specs]:
    every mapping node loses the type-discriminator key when the
    configuration asks for it; a field that the filter rejects and that
    has no filtered-in descendant is omitted; the retained keys follow
    the declared order and undeclared keys come after, in their original
    order; composite kinds are walked at every level. *)
Fixpoint sanitiseNode (conf : SanitiseConfig.t) (kind : FieldKind)
    (specs : list FieldSpec.t) (n : node) {struct n} : node :=
  match kind, n with
  | KindScalar, MappingNode content =>
      MappingNode
        (reorder conf specs
           (dropTypeField conf
              (map (fun kv : string * node =>
                      let (k, v) := kv in
                      (k, match findSpec k specs with
                          | Some f =>
                              sanitiseNode conf (FieldSpec.Kind f)
                                (FieldSpec.Children f) v
                          | None => v
                          end))
                   content)))
  | KindMap, MappingNode content =>
      MappingNode
        (dropTypeField conf
           (map (fun kv : string * node =>
                   let (k, v) := kv in
                   (k, sanitiseNode conf KindScalar specs v))
                content))
  | KindArray, SequenceNode items =>
      SequenceNode (map (sanitiseNode conf KindScalar specs) items)
  | Kind2DArray, SequenceNode items =>
      SequenceNode (map (sanitiseNode conf KindArray specs) items)
  | _, _ => n
  end.

(** Modelled from the spec: [SanitiseYAML], which section 4.2 describes
    as total once encoding has succeeded. *)
Definition SanitiseYAML_spec (t : CType) (n : node)
    (conf : SanitiseConfig.t) : result node :=
  Ok (sanitiseNode conf KindScalar (fieldSpecs t) n).
End OrderedExample.

(** The fields present in a view: the key paths of its mappings, the
    elements of a sequence standing at the path of the sequence. *)
Fixpoint fieldPaths (n : node) : list (list string) :=
  match n with
  | ScalarNode _ => []
  | MappingNode content =>
      flat_map (fun kv : string * node =>
                  let (k, v) := kv in
                  [k] :: map (cons k) (fieldPaths v))
               content
  | SequenceNode items => flat_map fieldPaths items
  end.

(** Every field present in the view [a] is present in the view [b]. *)
Definition within (a b : node) : Prop :=
  incl (fieldPaths a) (fieldPaths b).

(** Entry lists with the same keys in the same order, each value of the
    first within the value of the second. *)
Definition entriesWithin (l1 l2 : list (string * node)) : Prop :=
  Forall2 (fun kv1 kv2 => fst kv1 = fst kv2 /\ within (snd kv1) (snd kv2)) l1 l2.

(** Every entry of the first list has an entry of the same key in the
    second whose value holds at least the same fields. *)
Definition covered (l1 l2 : list (string * node)) : Prop :=
  forall k v1, In (k, v1) l1 ->
    exists v2, In (k, v2) l2 /\ within v1 v2.

(* ------------------------------------------------------------------ *)
(** ** Block-style serialisation, from the specification

    [marshalYAML] is defined elsewhere in package [docs]. *)

Definition isNewline (c : ascii) : bool := Ascii.eqb c (ascii_of_nat 10).
Definition isSpace (c : ascii) : bool := Ascii.eqb c (ascii_of_nat 32).

(** Two spaces in front of every line of a text; [atLineStart] tells
    whether the next byte opens a line. *)
Fixpoint indentFrom (atLineStart : bool) (text : string) : string :=
  match text with
  | EmptyString => EmptyString
  | String c rest =>
      let tail := String c (indentFrom (isNewline c) rest) in
      if atLineStart then "  " ++ tail else tail
  end.

Definition indent (text : string) : string := indentFrom true text.

(** Modelled from the spec: the block-style text of a node (sections 4.3
    and 6): keys in the order of the node, one entry per line, two spaces
    of indentation per level, no flow-style collections, no anchors. *)
Fixpoint blockText (n : node) : string :=
  match n with
  | ScalarNode value => value ++ nl
  | MappingNode content =>
      concatAll
        (map (fun kv : string * node =>
                let (k, v) := kv in
                match v with
                | ScalarNode value => k ++ ": " ++ value ++ nl
                | _ => k ++ ":" ++ nl ++ indent (blockText v)
                end)
             content)
  | SequenceNode items =>
      concatAll
        (map (fun v => "- " ++ indentFrom false (blockText v)) items)
  end.

(** Modelled from the spec: [marshalYAML]; a nested value is a mapping
    with the single key [key] (section 4.3).  Section 4.3 expects no
    failure on a filtered view. *)
Definition marshalYAML_spec (cfg : configValue) : result string :=
  match cfg with
  | Bare n => Ok (blockText n)
  | Nested key n => Ok (blockText (MappingNode [(key, n)]))
  end.

(** The inverse of [indent]: [skip] is the number of leading spaces still
    to be removed from the current line. *)
Fixpoint dedentFrom (skip : nat) (text : string) : string :=
  match text with
  | EmptyString => EmptyString
  | String c rest =>
      match skip with
      | S skip' =>
          if isSpace c then dedentFrom skip' rest
          else String c (dedentFrom (if isNewline c then 2 else 0) rest)
      | O => String c (dedentFrom (if isNewline c then 2 else 0) rest)
      end
  end.

Definition dedent (text : string) : string := dedentFrom 2 text.

(** [strings.CutPrefix]. *)
Fixpoint strings_CutPrefix (s prefix : string) : option string :=
  match prefix, s with
  | EmptyString, _ => Some s
  | String _ _, EmptyString => None
  | String p prefix', String c s' =>
      if Ascii.eqb p c then strings_CutPrefix s' prefix' else None
  end.

(** Modelled from the spec: unwrapping a text at its single top-level key
    [key] (section 8, nesting): the text must open with the key and a
    colon; what follows is the value, either on the same line or as an
    indented block, which loses one level of indentation. *)
Definition unwrapAt (key : string) (text : string) : option string :=
  match strings_CutPrefix text (key ++ ":") with
  | Some (String c rest) =>
      if isSpace c then Some rest
      else if isNewline c then Some (dedent rest)
      else None
  | _ => None
  end.

(* ------------------------------------------------------------------ *)
(** ** Environments *)

(** [E] with [SanitiseYAML] replaced. *)
Definition withSanitiseYAML {any : Type} (E : Env any)
    (sanitise : CType -> node -> SanitiseConfig.t -> result node) : Env any :=
  {| yaml_Encode := @yaml_Encode any E;
     NewSanitiseConfig := @NewSanitiseConfig any E;
     SanitiseYAML := sanitise;
     marshalYAML := @marshalYAML any E;
     json_Marshal := @json_Marshal any E;
     StatusStable := @StatusStable any E;
     FlattenChildrenForDocs := @FlattenChildrenForDocs any E;
     field_docs := @field_docs any E |}.

(** [E] with [marshalYAML] replaced. *)
Definition withMarshalYAML {any : Type} (E : Env any)
    (marshal : configValue -> result string) : Env any :=
  {| yaml_Encode := @yaml_Encode any E;
     NewSanitiseConfig := @NewSanitiseConfig any E;
     SanitiseYAML := @SanitiseYAML any E;
     marshalYAML := marshal;
     json_Marshal := @json_Marshal any E;
     StatusStable := @StatusStable any E;
     FlattenChildrenForDocs := @FlattenChildrenForDocs any E;
     field_docs := @field_docs any E |}.

(** *** A small concrete environment, used to run the definitions *)

Module Demo.
(** A raw example: a value the encoder turns into the node [n], or a
    value whose [MarshalYAML] method fails with [reason]. *)
Inductive exampleValue : Type :=
| Encodable (n : node)
| Unencodable (reason : error).

Definition field (name ty : string) (kind : FieldKind)
    (advanced deprecated : bool) (children : list FieldSpec.t) : FieldSpec.t :=
  FieldSpec.Build name ty kind advanced deprecated children.

(** The fields of the example of section 8: [a] is common, [b] advanced,
    [c] deprecated. *)
Definition abc : list FieldSpec.t :=
  [ field "a" "int" KindScalar false false [];
    field "b" "int" KindScalar true false [];
    field "c" "int" KindScalar false true [] ].

Definition registry (t : CType) : list FieldSpec.t := abc.

Definition joinWith (sep : string) (l : list string) : string :=
  match l with
  | [] => EmptyString
  | x :: rest => x ++ concatAll (map (fun s => sep ++ s) rest)
  end.

Definition fieldDoc (f : FieldSpecCtx.t) : string :=
  "### `" ++ FieldSpecCtx.FullName f ++ "`" ++ nl ++ nl ++
  "Type: `" ++ FieldSpec.Type_ (FieldSpecCtx.Spec f) ++ "`" ++ nl ++ nl.

#[export] Instance env : Env exampleValue :=
  {| yaml_Encode := fun v =>
       match v with
       | Encodable n => Ok n
       | Unencodable reason => Err reason
       end;
     NewSanitiseConfig :=
       {| SanitiseConfig.RemoveTypeField := false;
          SanitiseConfig.Filter := fun _ => true;
          SanitiseConfig.ForExample := false |};
     SanitiseYAML := SanitiseYAML_spec registry "type";
     marshalYAML := marshalYAML_spec;
     json_Marshal := fun l =>
       Ok ("[" ++ joinWith "," (map (fun s => dquote ++ s ++ dquote) l) ++ "]");
     StatusStable := "stable";
     FlattenChildrenForDocs := fun f =>
       map (fun child => FieldSpecCtx.Build (FieldSpec.Name child) child)
           (FieldSpec.Children f);
     field_docs := fun ctx =>
       emit (concatAll (map fieldDoc (componentContext.Fields ctx))) |}.

(** The same, with a sub-template that stops with an error after its
    first heading. *)
Definition envFailingFieldDocs : Env exampleValue :=
  {| yaml_Encode := @yaml_Encode _ env;
     NewSanitiseConfig := @NewSanitiseConfig _ env;
     SanitiseYAML := @SanitiseYAML _ env;
     marshalYAML := @marshalYAML _ env;
     json_Marshal := @json_Marshal _ env;
     StatusStable := @StatusStable _ env;
     FlattenChildrenForDocs := @FlattenChildrenForDocs _ env;
     field_docs := fun _ => ("### ", Some "template: field_docs: error") |}.

(** The raw example of section 8: [{c: 3, a: 1, b: 2}]. *)
Definition rawABC : exampleValue :=
  Encodable
    (MappingNode
       [ ("c", ScalarNode "3"); ("a", ScalarNode "1"); ("b", ScalarNode "2") ]).

(** A second registry, with an object, a list of objects, a map of
    objects and an advanced object that has a common child. *)
Definition xy : list FieldSpec.t :=
  [ field "x" "int" KindScalar false false [];
    field "y" "int" KindScalar true false [] ].

Definition nestedSpecs : list FieldSpec.t :=
  [ field "o" "object" KindScalar false false xy;
    field "l" "object" KindArray false false xy;
    field "m" "object" KindMap true false xy;
    field "g" "object" KindScalar true false
      [ field "h" "int" KindScalar false false [] ];
    field "old" "int" KindScalar false true [] ].

Definition xyValue : node :=
  MappingNode [ ("y", ScalarNode "1"); ("x", ScalarNode "2") ].

Definition rawNested : node :=
  MappingNode
    [ ("type", ScalarNode "demo"); ("zz", ScalarNode "9");
      ("old", ScalarNode "0");
      ("g", MappingNode [ ("h", ScalarNode "5") ]);
      ("m", MappingNode [ ("k1", xyValue) ]);
      ("l", SequenceNode [ xyValue; xyValue ]);
      ("o", xyValue) ].

Definition component (summary status : string) : ComponentSpec.t :=
  {| ComponentSpec.Name := "demo";
     ComponentSpec.Type_ := "input";
     ComponentSpec.Status := status;
     ComponentSpec.Summary := summary;
     ComponentSpec.Description := nl ++ "A demonstration.";
     ComponentSpec.Categories := ["Utility"];
     ComponentSpec.Footnotes := EmptyString;
     ComponentSpec.Config :=
       field EmptyString "object" KindScalar false false
         (abc ++ [ field "d" "string" KindArray false false [];
                   field "e" "float" Kind2DArray false false [];
                   field "f" "bool" KindMap true false [] ])%list;
     ComponentSpec.Examples := [];
     ComponentSpec.Version := EmptyString |}.
End Demo.

(* ------------------------------------------------------------------ *)
(** ** Further values used to run the definitions *)

(** [c] with another [Description], and with other [Footnotes]. *)
Definition withDescription (c : ComponentSpec.t) (s : string) : ComponentSpec.t :=
  {| ComponentSpec.Name := ComponentSpec.Name c;
     ComponentSpec.Type_ := ComponentSpec.Type_ c;
     ComponentSpec.Status := ComponentSpec.Status c;
     ComponentSpec.Summary := ComponentSpec.Summary c;
     ComponentSpec.Description := s;
     ComponentSpec.Categories := ComponentSpec.Categories c;
     ComponentSpec.Footnotes := ComponentSpec.Footnotes c;
     ComponentSpec.Config := ComponentSpec.Config c;
     ComponentSpec.Examples := ComponentSpec.Examples c;
     ComponentSpec.Version := ComponentSpec.Version c |}.

Definition withFootnotes (c : ComponentSpec.t) (s : string) : ComponentSpec.t :=
  {| ComponentSpec.Name := ComponentSpec.Name c;
     ComponentSpec.Type_ := ComponentSpec.Type_ c;
     ComponentSpec.Status := ComponentSpec.Status c;
     ComponentSpec.Summary := ComponentSpec.Summary c;
     ComponentSpec.Description := ComponentSpec.Description c;
     ComponentSpec.Categories := ComponentSpec.Categories c;
     ComponentSpec.Footnotes := s;
     ComponentSpec.Config := ComponentSpec.Config c;
     ComponentSpec.Examples := ComponentSpec.Examples c;
     ComponentSpec.Version := ComponentSpec.Version c |}.

(** The line [## Fields] and the blank line after it (lines 104-105 and
    134-135). *)
Definition fieldsHeading : string := "## Fields" ++ nl ++ nl.

Section Remainder.
Context {any : Type} `{E : Env any}.

(** Lines 100-142: the run of the template from the description on, that
    is, everything that follows the config block. *)
Definition afterConfig (ctx : componentContext.t) : written :=
  let n := List.length (componentContext.Fields ctx) in
  emit (descriptionSection ctx) >>
  when ((n <=? 4)%nat && (0 <? n)%nat) (fieldsSection ctx) >>
  emit (examplesSection ctx) >>
  when (4 <? n)%nat (fieldsSection ctx) >>
  emit (footnotesSection ctx).
End Remainder.

Module Cases.
(** A component without fields and without categories. *)
Definition plain : ComponentSpec.t :=
  {| ComponentSpec.Name := "plain";
     ComponentSpec.Type_ := "processor";
     ComponentSpec.Status := "Beta";
     ComponentSpec.Summary := "Does nothing.";
     ComponentSpec.Description := "Nothing at all.";
     ComponentSpec.Categories := [];
     ComponentSpec.Footnotes := nl ++ "## Notes";
     ComponentSpec.Config :=
       Demo.field EmptyString "object" KindScalar false false [];
     ComponentSpec.Examples :=
       [ AnnotatedExample.Build "First" "An example." (nl ++ "a: 1" ++ nl) ];
     ComponentSpec.Version := "1.0.0" |}.

(** A component with two fields. *)
Definition small : ComponentSpec.t :=
  {| ComponentSpec.Name := "small";
     ComponentSpec.Type_ := "input";
     ComponentSpec.Status := "experimental";
     ComponentSpec.Summary := EmptyString;
     ComponentSpec.Description := EmptyString;
     ComponentSpec.Categories := [ "Utility"; "Local" ];
     ComponentSpec.Footnotes := EmptyString;
     ComponentSpec.Config :=
       Demo.field EmptyString "object" KindScalar false false Demo.xy;
     ComponentSpec.Examples := [];
     ComponentSpec.Version := EmptyString |}.

(** An example value that only holds the common field [a]. *)
Definition rawA : Demo.exampleValue :=
  Demo.Encodable (MappingNode [ ("a", ScalarNode "1") ]).

(** The demonstration environment with a [json.Marshal] that fails. *)
Definition envFailingJSON : Env Demo.exampleValue :=
  {| yaml_Encode := @yaml_Encode _ Demo.env;
     NewSanitiseConfig := @NewSanitiseConfig _ Demo.env;
     SanitiseYAML := @SanitiseYAML _ Demo.env;
     marshalYAML := @marshalYAML _ Demo.env;
     json_Marshal := fun _ => Err "json: unsupported value";
     StatusStable := @StatusStable _ Demo.env;
     FlattenChildrenForDocs := @FlattenChildrenForDocs _ Demo.env;
     field_docs := @field_docs _ Demo.env |}.
End Cases.

(* ================================================================== *)
(** * Properties *)

(** ** Strings *)

Lemma append_nil_r (s : string) : s ++ EmptyString = s.
Proof. induction s as [|c s IH]; simpl; [reflexivity | now rewrite IH]. Qed.

Lemma append_assoc (a b c : string) : (a ++ b) ++ c = a ++ (b ++ c).
Proof. induction a as [|x a IH]; simpl; [reflexivity | now rewrite IH]. Qed.

Lemma strings_HasPrefix_iff (s prefix : string) :
  strings_HasPrefix s prefix = true <-> exists rest, s = prefix ++ rest.
Proof.
  revert s; induction prefix as [|p prefix IH]; intros s.
  - destruct s; simpl; (split; [intros _; eexists; reflexivity | reflexivity]).
  - destruct s as [|c s]; simpl.
    + split; [discriminate | intros [rest H]; discriminate H].
    + rewrite andb_true_iff, Ascii.eqb_eq, IH. split.
      * intros [-> [rest ->]]. now exists rest.
      * intros [rest H]. injection H as -> ->. split; [reflexivity | now exists rest].
Qed.

(** [strings.Contains s substr] holds exactly when [substr] occurs in [s]. *)
Lemma strings_Contains_iff (s substr : string) :
  strings_Contains s substr = true <->
  exists pre post, s = pre ++ substr ++ post.
Proof.
  split.
  - induction s as [|c s IH].
    + cbn [strings_Contains]. rewrite orb_false_r, strings_HasPrefix_iff.
      intros [rest H]. now exists EmptyString, rest.
    + cbn [strings_Contains]. rewrite orb_true_iff, strings_HasPrefix_iff.
      intros [[rest H] | H].
      * now exists EmptyString, rest.
      * destruct (IH H) as (pre & post & ->). now exists (String c pre), post.
  - intros (pre & post & ->).
    induction pre as [|c pre IH].
    + simpl append.
      assert (P : strings_HasPrefix (substr ++ post) substr = true)
        by (apply strings_HasPrefix_iff; now exists post).
      destruct (substr ++ post); cbn [strings_Contains]; now rewrite P.
    + change (String c pre ++ substr ++ post)
        with (String c (pre ++ substr ++ post)).
      cbn [strings_Contains]. rewrite IH. apply orb_true_r.
Qed.

Lemma strings_CutPrefix_app (prefix rest : string) :
  strings_CutPrefix (prefix ++ rest) prefix = Some rest.
Proof.
  induction prefix as [|p prefix IH]; simpl.
  - now destruct rest.
  - now rewrite Ascii.eqb_refl.
Qed.

Lemma Returns_inj (A : Type) (a b : A) : Returns a = Returns b -> a = b.
Proof. now intros [= ->]. Qed.

(** ** Template runs *)

Lemma andThen_emit (s : string) (w : written) :
  emit s >> w = (s ++ fst w, snd w).
Proof. reflexivity. Qed.

Lemma andThen_ok (a b : written) :
  snd a = None -> snd b = None -> snd (a >> b) = None.
Proof. destruct a as [out [e|]]; simpl; [discriminate | auto]. Qed.

Lemma when_ok (cond : bool) (w : written) :
  snd w = None -> snd (when cond w) = None.
Proof. now destruct cond. Qed.

Lemma emit_ok (s : string) : snd (emit s) = None.
Proof. reflexivity. Qed.

Create HintDb template_ok.
#[export] Hint Resolve andThen_ok when_ok emit_ok : template_ok.

Section Properties.
Context {any : Type} {E : Env any}.

(** The template run starts with the text before the config block and
    the config block, whatever happens later. *)
Lemma Execute_starts (ctx : componentContext.t) :
  exists rest,
    fst (Execute ctx) = beforeConfig ctx ++ configSection ctx ++ rest.
Proof.
  unfold Execute, componentTemplate.
  rewrite !andThen_emit. cbn [fst]. eexists. reflexivity.
Qed.

(** A run that [field_docs] does not stop ends without an error. *)
Lemma Execute_ok (ctx : componentContext.t) :
  snd (field_docs ctx) = None -> snd (Execute ctx) = None.
Proof.
  intros H. unfold Execute, componentTemplate, fieldsSection.
  auto 12 with template_ok.
Qed.

(** The loop over the flattened fields is a [map]. *)
Lemma displayFields_map (l : list FieldSpecCtx.t) :
  displayFields l = map displayField l.
Proof.
  unfold displayFields.
  enough (G : forall acc,
             fold_left (fun fields v => (fields ++ [displayField v])%list) l acc
             = (acc ++ map displayField l)%list) by apply (G []).
  induction l as [|v l IH]; intros acc; simpl.
  - now rewrite app_nil_r.
  - rewrite IH, <- app_assoc. reflexivity.
Qed.

(** [AsMarkdown] by cases. *)
Lemma AsMarkdown_rejects (c : ComponentSpec.t) (nest : bool) (ex : any) :
  strings_Contains (ComponentSpec.Summary c) (nl ++ nl) = true ->
  AsMarkdown c nest ex = Returns (EmptyString, Some (summaryError c)).
Proof. unfold AsMarkdown. now intros ->. Qed.

Lemma AsMarkdown_checked (c : ComponentSpec.t) (nest : bool) (ex : any) :
  strings_Contains (ComponentSpec.Summary c) (nl ++ nl) = false ->
  AsMarkdown c nest ex = renderChecked c nest ex.
Proof. unfold AsMarkdown. now intros ->. Qed.

(** [genExampleConfigs] never returns an error: it returns a nil error
    or panics. *)
Lemma genExampleConfigs_returns_nil_error (t : CType) (nest : bool)
    (ex : any) (common advanced : string) (err : option error) :
  genExampleConfigs t nest ex = Returns (common, advanced, err) ->
  err = None.
Proof.
  unfold genExampleConfigs.
  destruct (createOrderedConfig t ex advancedFilter); [|discriminate].
  destruct (createOrderedConfig t ex commonFilter); [|discriminate].
  destruct (marshalYAML _); [|discriminate].
  destruct (marshalYAML _); [|discriminate].
  now intros [= _ _ <-].
Qed.

(** C1. The common filter accepts a field exactly when it is neither
    advanced nor deprecated; the advanced filter accepts a field exactly
    when it is not deprecated. *)
Theorem field_filters_defined (f : FieldSpec.t) :
  (commonFilter f = true <->
     FieldSpec.IsAdvanced f = false /\ FieldSpec.IsDeprecated f = false)
  /\ (advancedFilter f = true <-> FieldSpec.IsDeprecated f = false).
Proof.
  unfold commonFilter, advancedFilter.
  rewrite andb_true_iff, !negb_true_iff. tauto.
Qed.

(** C4. A summary in which two line breaks follow each other makes
    [AsMarkdown] return the summary error and no bytes, whatever the
    package and the libraries would answer: none of them is consulted.
    A summary without such a pair passes the check, and [AsMarkdown] goes
    on with the rest of its body. *)
Theorem summary_blank_line_rejected
    (c : ComponentSpec.t) (nest : bool) (ex : any) :
  ((exists pre post, ComponentSpec.Summary c = pre ++ (nl ++ nl) ++ post) ->
     AsMarkdown c nest ex = Returns (EmptyString, Some (summaryError c)))
  /\ ((~ exists pre post, ComponentSpec.Summary c = pre ++ (nl ++ nl) ++ post) ->
        AsMarkdown c nest ex = renderChecked c nest ex).
Proof.
  split; intros H.
  - apply AsMarkdown_rejects. now apply strings_Contains_iff.
  - apply AsMarkdown_checked.
    destruct (strings_Contains (ComponentSpec.Summary c) (nl ++ nl)) eqn:C;
      [|reflexivity].
    apply strings_Contains_iff in C. contradiction.
Qed.
End Properties.

Section ErrorPaths.
Context {any : Type} {E : Env any}.

Lemma createOrderedConfig_encode_error (t : CType) (ex : any)
    (filter : FieldFilter) (err : error) :
  yaml_Encode ex = Err err -> createOrderedConfig t ex filter = Err err.
Proof. unfold createOrderedConfig. now intros ->. Qed.

(** C3, as the code has it. With a summary that passes the check, a
    failure of any step of the example generation (encoding, ordering,
    or the serialisation of either view) is not returned by [AsMarkdown]:
    [genExampleConfigs] panics with the error of the first step that
    fails, and the panic leaves [AsMarkdown] as it is. *)
Theorem example_failure_panics
    (c : ComponentSpec.t) (nest : bool) (ex : any) (err : error) :
  strings_Contains (ComponentSpec.Summary c) (nl ++ nl) = false ->
  ( yaml_Encode ex = Err err
    \/ createOrderedConfig (ComponentSpec.Type_ c) ex advancedFilter = Err err
    \/ (exists adv,
           createOrderedConfig (ComponentSpec.Type_ c) ex advancedFilter = Ok adv
           /\ createOrderedConfig (ComponentSpec.Type_ c) ex commonFilter = Err err)
    \/ (exists adv com,
           createOrderedConfig (ComponentSpec.Type_ c) ex advancedFilter = Ok adv
           /\ createOrderedConfig (ComponentSpec.Type_ c) ex commonFilter = Ok com
           /\ marshalYAML (nested nest (ComponentSpec.Type_ c) adv) = Err err)
    \/ (exists adv com advText,
           createOrderedConfig (ComponentSpec.Type_ c) ex advancedFilter = Ok adv
           /\ createOrderedConfig (ComponentSpec.Type_ c) ex commonFilter = Ok com
           /\ marshalYAML (nested nest (ComponentSpec.Type_ c) adv) = Ok advText
           /\ marshalYAML (nested nest (ComponentSpec.Type_ c) com) = Err err) ) ->
  genExampleConfigs (ComponentSpec.Type_ c) nest ex = Panics err
  /\ AsMarkdown c nest ex = Panics err.
Proof.
  intros Hsum Hfail.
  assert (G : genExampleConfigs (ComponentSpec.Type_ c) nest ex = Panics err).
  { unfold genExampleConfigs.
    destruct Hfail as [H | [H | [(adv & Ha & H) | [(adv & com & Ha & Hc & H)
                      | (adv & com & advText & Ha & Hc & Hm & H)]]]].
    - now rewrite (@createOrderedConfig_encode_error
                     (ComponentSpec.Type_ c) ex advancedFilter err H).
    - now rewrite H.
    - now rewrite Ha, H.
    - now rewrite Ha, Hc, H.
    - now rewrite Ha, Hc, Hm, H. }
  split; [exact G|].
  rewrite (AsMarkdown_checked c nest ex Hsum).
  unfold renderChecked. now rewrite G.
Qed.

(** Past the check and the example generation, [AsMarkdown] returns
    what line 245 finds: the buffer as the run of the template left it,
    and the error of that run. *)
Remark AsMarkdown_returns_Execute
    (c : ComponentSpec.t) (nest : bool) (ex : any)
    (common advanced : string) :
  strings_Contains (ComponentSpec.Summary c) (nl ++ nl) = false ->
  genExampleConfigs (ComponentSpec.Type_ c) nest ex
    = Returns (common, advanced, None) ->
  AsMarkdown c nest ex = Returns (Execute (renderContext c common advanced)).
Proof.
  intros Hsum G. rewrite (AsMarkdown_checked c nest ex Hsum).
  unfold renderChecked. now rewrite G.
Qed.
End ErrorPaths.

Section Document.
Context {any : Type} {E : Env any}.

Lemma displayField_spec (v : FieldSpecCtx.t) :
  FieldSpecCtx.FullName (displayField v) = FieldSpecCtx.FullName v
  /\ FieldSpec.Kind (FieldSpecCtx.Spec (displayField v)) = KindScalar
  /\ FieldSpec.Type_ (FieldSpecCtx.Spec (displayField v)) =
       match FieldSpec.Kind (FieldSpecCtx.Spec v) with
       | KindMap => "object"
       | KindArray => "array"
       | Kind2DArray => "two-dimensional array"
       | KindScalar => FieldSpec.Type_ (FieldSpecCtx.Spec v)
       end.
Proof.
  unfold displayField. cbn.
  destruct (FieldSpec.Kind (FieldSpecCtx.Spec v)); cbn; auto.
Qed.

(** C8. When [AsMarkdown] reaches the template, the context it hands
    over lists the flattened fields one for one, each with kind scalar,
    and with the type label "object" for a map, "array" for an array,
    "two-dimensional array" for an array of arrays, and its own type for
    a scalar. *)
Theorem template_fields_display_kind
    (c : ComponentSpec.t) (nest : bool) (ex : any)
    (common advanced : string) :
  strings_Contains (ComponentSpec.Summary c) (nl ++ nl) = false ->
  genExampleConfigs (ComponentSpec.Type_ c) nest ex
    = Returns (common, advanced, None) ->
  AsMarkdown c nest ex = Returns (Execute (renderContext c common advanced))
  /\ Forall2
       (fun v w =>
          FieldSpecCtx.FullName w = FieldSpecCtx.FullName v
          /\ FieldSpec.Kind (FieldSpecCtx.Spec w) = KindScalar
          /\ FieldSpec.Type_ (FieldSpecCtx.Spec w) =
               match FieldSpec.Kind (FieldSpecCtx.Spec v) with
               | KindMap => "object"
               | KindArray => "array"
               | Kind2DArray => "two-dimensional array"
               | KindScalar => FieldSpec.Type_ (FieldSpecCtx.Spec v)
               end)
       (FlattenChildrenForDocs (ComponentSpec.Config c))
       (componentContext.Fields (renderContext c common advanced)).
Proof.
  intros Hsum G. split.
  - now apply AsMarkdown_returns_Execute.
  - cbn [renderContext componentContext.Fields]. rewrite displayFields_map.
    induction (FlattenChildrenForDocs (ComponentSpec.Config c)) as [|v l IH];
      simpl map; constructor; [apply displayField_spec | exact IH].
Qed.

Lemma renderContext_withStatus_stable
    (c : ComponentSpec.t) (common advanced : string) :
  StatusStable = "stable" ->
  ComponentSpec.Status c = EmptyString ->
  renderContext (ComponentSpec.withStatus c "stable") common advanced
  = renderContext c common advanced.
Proof.
  intros Hstable Hempty. unfold renderContext. cbn.
  rewrite Hempty, Hstable. reflexivity.
Qed.

(** The run of the template is the text up to and including the config
    block, followed by the run of the rest. *)
Lemma Execute_split (ctx : componentContext.t) :
  Execute ctx = emit (beforeConfig ctx ++ configSection ctx) >> afterConfig ctx.
Proof.
  unfold Execute, componentTemplate, afterConfig.
  rewrite !andThen_emit. cbn [fst snd]. now rewrite append_assoc.
Qed.

(** Past the check and the example generation, the bytes and the error
    [AsMarkdown] returns are those of that run. *)
Lemma AsMarkdown_document
    (c : ComponentSpec.t) (nest : bool) (ex : any) (common advanced : string) :
  strings_Contains (ComponentSpec.Summary c) (nl ++ nl) = false ->
  genExampleConfigs (ComponentSpec.Type_ c) nest ex
    = Returns (common, advanced, None) ->
  AsMarkdown c nest ex =
    Returns
      (emit (beforeConfig (renderContext c common advanced) ++
             configSection (renderContext c common advanced))
       >> afterConfig (renderContext c common advanced)).
Proof.
  intros Hsum G. rewrite (AsMarkdown_returns_Execute c nest ex Hsum G).
  now rewrite Execute_split.
Qed.

(** C9. With [StatusStable] being "stable": on a component whose status
    is empty [AsMarkdown] ends exactly as on the same component with status
    "stable".  When it reaches the template, the bytes it returns are, for
    an empty status, the front matter with the line "status: stable", the
    banner, and then at once the summary, with no admonition in between,
    followed by the config block and the rest of the document; for a
    status that is not empty, the status line holds that status as it is,
    and the admonition is the one the template has for that status. *)
Theorem empty_status_renders_stable
    (c : ComponentSpec.t) (nest : bool) (ex : any)
    (common advanced : string) :
  StatusStable = "stable" ->
  (ComponentSpec.Status c = EmptyString ->
     AsMarkdown c nest ex
       = AsMarkdown (ComponentSpec.withStatus c "stable") nest ex)
  /\ (strings_Contains (ComponentSpec.Summary c) (nl ++ nl) = false ->
      genExampleConfigs (ComponentSpec.Type_ c) nest ex
        = Returns (common, advanced, None) ->
      (ComponentSpec.Status c = EmptyString ->
       AsMarkdown c nest ex =
         Returns
           (emit
              ("---" ++ nl ++
               "title: " ++ ComponentSpec.Name c ++ nl ++
               "type: " ++ ComponentSpec.Type_ c ++ nl ++
               "status: stable" ++ nl ++
               whenText (nonEmpty (categoriesText (ComponentSpec.Categories c)))
                 ("categories: " ++ categoriesText (ComponentSpec.Categories c) ++ nl) ++
               "---" ++ nl ++
               unlines
                 [ EmptyString;
                   "<!--";
                   "     THIS FILE IS AUTOGENERATED!";
                   EmptyString;
                   "     To make changes please edit the corresponding source file under internal/impl/<provider>.";
                   "-->";
                   EmptyString;
                   "import Tabs from '@theme/Tabs';";
                   "import TabItem from '@theme/TabItem';";
                   EmptyString ] ++
               whenText (nonEmpty (ComponentSpec.Summary c))
                 (ComponentSpec.Summary c ++ nl) ++
               whenText (nonEmpty (ComponentSpec.Version c))
                 (nl ++ "Introduced in version " ++ ComponentSpec.Version c ++ "." ++ nl) ++
               nl ++
               configSection (renderContext c common advanced))
            >> afterConfig (renderContext c common advanced)))
      /\ (ComponentSpec.Status c <> EmptyString ->
          AsMarkdown c nest ex =
            Returns
              (emit
                 ("---" ++ nl ++
                  "title: " ++ ComponentSpec.Name c ++ nl ++
                  "type: " ++ ComponentSpec.Type_ c ++ nl ++
                  "status: " ++ ComponentSpec.Status c ++ nl ++
                  whenText (nonEmpty (categoriesText (ComponentSpec.Categories c)))
                    ("categories: " ++ categoriesText (ComponentSpec.Categories c) ++ nl) ++
                  "---" ++ nl ++
                  unlines
                    [ EmptyString;
                      "<!--";
                      "     THIS FILE IS AUTOGENERATED!";
                      EmptyString;
                      "     To make changes please edit the corresponding source file under internal/impl/<provider>.";
                      "-->";
                      EmptyString;
                      "import Tabs from '@theme/Tabs';";
                      "import TabItem from '@theme/TabItem';";
                      EmptyString ] ++
                  whenText (ComponentSpec.Status c =? "beta")
                    (unlines
                       [ ":::caution BETA";
                         "This component is mostly stable but breaking changes could still be made outside of major version releases if a fundamental problem with the component is found.";
                         ":::" ]) ++
                  whenText (ComponentSpec.Status c =? "experimental")
                    (unlines
                       [ ":::caution EXPERIMENTAL";
                         "This component is experimental and therefore subject to change or removal outside of major version releases.";
                         ":::" ]) ++
                  whenText (ComponentSpec.Status c =? "deprecated")
                    (unlines
                       [ ":::warning DEPRECATED";
                         "This component is deprecated and will be removed in the next major version release. Please consider moving onto [alternative components](#alternatives).";
                         ":::" ]) ++
                  whenText (nonEmpty (ComponentSpec.Summary c))
                    (ComponentSpec.Summary c ++ nl) ++
                  whenText (nonEmpty (ComponentSpec.Version c))
                    (nl ++ "Introduced in version " ++ ComponentSpec.Version c ++ "." ++ nl) ++
                  nl ++
                  configSection (renderContext c common advanced))
               >> afterConfig (renderContext c common advanced)))).
Proof.
  intros Hstable. split.
  - intros Hempty.
    unfold AsMarkdown, renderChecked. cbn [ComponentSpec.withStatus
      ComponentSpec.Summary ComponentSpec.Type_].
    replace (summaryError (ComponentSpec.withStatus c "stable"))
      with (summaryError c) by reflexivity.
    destruct (strings_Contains (ComponentSpec.Summary c) (nl ++ nl));
      [reflexivity|].
    destruct (genExampleConfigs (ComponentSpec.Type_ c) nest ex)
      as [[[cm adv] [e|]] | p]; try reflexivity.
    now rewrite renderContext_withStatus_stable.
  - intros Hsum G.
    rewrite (AsMarkdown_document c nest ex Hsum G).
    split; intros Hst; do 3 f_equal;
      unfold beforeConfig, frontMatter, statusAdmonition, summarySection, banner;
      cbn [renderContext componentContext.Name componentContext.Type_
           componentContext.FrontMatterSummary componentContext.Categories
           componentContext.Status componentContext.Summary
           componentContext.Version].
    + rewrite Hst, Hstable.
      cbn [String.eqb Ascii.eqb Bool.eqb nonEmpty String.length Nat.ltb Nat.leb
           whenText].
      rewrite !append_assoc. cbn [append]. reflexivity.
    + destruct (String.eqb_spec (ComponentSpec.Status c) EmptyString) as [Heq | _];
        [contradiction|].
      cbn [nonEmpty String.length Nat.ltb Nat.leb whenText].
      rewrite !append_assoc. cbn [append]. reflexivity.
Qed.

(** C10. When [AsMarkdown] reaches the template, the bytes it returns are
    the text that precedes the config block, then the config block, then
    the rest of the document (description, fields, examples, footnotes),
    and nothing else.  When the two configuration texts are equal, the
    config block is the single code block headed
    "# Config fields, showing default values" that holds the text, with no
    tab around it; when they differ, it is the Tabs element with the tab
    "common", which holds the common text, and the tab "advanced", which
    holds the advanced text. *)
Theorem config_block_single_or_tabs
    (c : ComponentSpec.t) (nest : bool) (ex : any)
    (common advanced : string) :
  strings_Contains (ComponentSpec.Summary c) (nl ++ nl) = false ->
  genExampleConfigs (ComponentSpec.Type_ c) nest ex
    = Returns (common, advanced, None) ->
  (common = advanced ->
   AsMarkdown c nest ex =
     Returns
       (emit
          (beforeConfig (renderContext c EmptyString EmptyString) ++
           ("```yml" ++ nl ++
            "# Config fields, showing default values" ++ nl ++
            common ++
            "```" ++ nl))
        >> afterConfig (renderContext c common advanced)))
  /\ (common <> advanced ->
      AsMarkdown c nest ex =
        Returns
          (emit
             (beforeConfig (renderContext c EmptyString EmptyString) ++
              (nl ++
            "<Tabs defaultValue=" ++ dquote ++ "common" ++ dquote ++ " values={[" ++ nl ++
            "  { label: 'Common', value: 'common', }," ++ nl ++
            "  { label: 'Advanced', value: 'advanced', }," ++ nl ++
            "]}>" ++ nl ++
            nl ++
            "<TabItem value=" ++ dquote ++ "common" ++ dquote ++ ">" ++ nl ++
            nl ++
            "```yml" ++ nl ++
            "# Common config fields, showing default values" ++ nl ++
            common ++
            "```" ++ nl ++
            nl ++
            "</TabItem>" ++ nl ++
            "<TabItem value=" ++ dquote ++ "advanced" ++ dquote ++ ">" ++ nl ++
            nl ++
            "```yml" ++ nl ++
            "# All config fields, showing default values" ++ nl ++
            advanced ++
            "```" ++ nl ++
            nl ++
            "</TabItem>" ++ nl ++
            "</Tabs>" ++ nl))
           >> afterConfig (renderContext c common advanced))).
Proof.
  intros Hsum G. rewrite (AsMarkdown_document c nest ex Hsum G).
  split; intros H; do 3 f_equal; unfold configSection;
    cbn [renderContext componentContext.CommonConfig
         componentContext.AdvancedConfig].
  - subst advanced. rewrite String.eqb_refl. reflexivity.
  - destruct (String.eqb_spec common advanced) as [Heq | _]; [contradiction|].
    reflexivity.
Qed.
End Document.


(** ** The ordered example builder *)

(** Induction over nodes that reaches the nodes inside mappings and
    sequences. *)
Section NodeInduction.
Variable P : node -> Prop.
Hypothesis scalar_case : forall value, P (ScalarNode value).
Hypothesis mapping_case :
  forall content, Forall (fun kv => P (snd kv)) content -> P (MappingNode content).
Hypothesis sequence_case :
  forall items, Forall P items -> P (SequenceNode items).

Fixpoint node_nested_ind (n : node) : P n :=
  match n with
  | ScalarNode value => scalar_case value
  | MappingNode content =>
      mapping_case
        ((fix entries (l : list (string * node))
            : Forall (fun kv => P (snd kv)) l :=
            match l with
            | [] => Forall_nil _
            | kv :: rest =>
                Forall_cons kv
                  (match kv as kv' return P (snd kv') with
                   | (_, v) => node_nested_ind v
                   end)
                  (entries rest)
            end) content)
  | SequenceNode items =>
      sequence_case
        ((fix elements (l : list node) : Forall P l :=
            match l with
            | [] => Forall_nil _
            | v :: rest => Forall_cons v (node_nested_ind v) (elements rest)
            end) items)
  end.
End NodeInduction.

(** Induction over field specifications that reaches the children. *)
Section FieldSpecInduction.
Variable P : FieldSpec.t -> Prop.
Hypothesis step :
  forall f, Forall P (FieldSpec.Children f) -> P f.

Fixpoint FieldSpec_nested_ind (f : FieldSpec.t) : P f :=
  match f as f' return P f' with
  | FieldSpec.Build name ty kind adv dep children =>
      step (FieldSpec.Build name ty kind adv dep children)
        ((fix all (l : list FieldSpec.t) : Forall P l :=
            match l with
            | [] => Forall_nil _
            | g :: rest => Forall_cons g (FieldSpec_nested_ind g) (all rest)
            end) children)
  end.
End FieldSpecInduction.

Section Monotone.
Variable typeField : string.
Variables conf1 conf2 : SanitiseConfig.t.
Hypothesis same_flag :
  SanitiseConfig.RemoveTypeField conf1 = SanitiseConfig.RemoveTypeField conf2.
Hypothesis weaker :
  forall f, SanitiseConfig.Filter conf1 f = true ->
            SanitiseConfig.Filter conf2 f = true.

Lemma retained_weaker (f : FieldSpec.t) :
  retained (SanitiseConfig.Filter conf1) f = true ->
  retained (SanitiseConfig.Filter conf2) f = true.
Proof.
  induction f as [f IH] using FieldSpec_nested_ind.
  destruct f as [name ty kind adv dep children]. cbn [retained].
  cbn [FieldSpec.Children] in IH.
  rewrite !orb_true_iff. intros [H | H]; [left; now apply weaker | right].
  rewrite existsb_exists in *. destruct H as (g & Hin & Hg).
  exists g. split; [exact Hin|]. rewrite Forall_forall in IH. now apply IH.
Qed.

Lemma fieldPaths_mapping (content : list (string * node)) (p : list string) :
  In p (fieldPaths (MappingNode content)) <->
  exists k v, In (k, v) content /\
              (p = [k] \/ exists q, In q (fieldPaths v) /\ p = k :: q).
Proof.
  cbn [fieldPaths]. rewrite in_flat_map. split.
  - intros ([k v] & Hin & Hp). exists k, v. split; [exact Hin|].
    destruct Hp as [<- | Hp]; [now left | right].
    apply in_map_iff in Hp. destruct Hp as (q & <- & Hq). now exists q.
  - intros (k & v & Hin & Hp). exists (k, v). split; [exact Hin|].
    destruct Hp as [-> | (q & Hq & ->)]; [now left | right].
    apply in_map_iff. now exists q.
Qed.

Lemma covered_within (l1 l2 : list (string * node)) :
  covered l1 l2 -> within (MappingNode l1) (MappingNode l2).
Proof.
  intros C p Hp. apply fieldPaths_mapping in Hp.
  destruct Hp as (k & v1 & Hin & Hp).
  destruct (C k v1 Hin) as (v2 & Hin2 & W).
  apply fieldPaths_mapping. exists k, v2. split; [exact Hin2|].
  destruct Hp as [-> | (q & Hq & ->)]; [now left | right].
  exists q. split; [now apply W | reflexivity].
Qed.

Lemma entriesWithin_covered (l1 l2 : list (string * node)) :
  entriesWithin l1 l2 -> covered l1 l2.
Proof.
  induction 1 as [|[k1 v1] [k2 v2] l1 l2 [Hk Hv] _ IH]; intros k v Hin.
  - destruct Hin.
  - cbn in Hk, Hv. subst k2. destruct Hin as [[= <- <-] | Hin].
    + exists v2. split; [now left | exact Hv].
    + destruct (IH k v Hin) as (v' & Hin' & W). exists v'. split; [now right | exact W].
Qed.

Lemma entriesWithin_filter (keep : string -> bool) (l1 l2 : list (string * node)) :
  entriesWithin l1 l2 ->
  entriesWithin (filter (fun kv => keep (fst kv)) l1)
                (filter (fun kv => keep (fst kv)) l2).
Proof.
  induction 1 as [|[k1 v1] [k2 v2] l1 l2 [Hk Hv] _ IH]; cbn [filter fst].
  - constructor.
  - cbn in Hk. subst k2. destruct (keep k1); [constructor; auto | exact IH].
Qed.

Lemma entriesWithin_lookupKey (key : string) (l1 l2 : list (string * node)) (v1 : node) :
  entriesWithin l1 l2 ->
  lookupKey key l1 = Some v1 ->
  exists v2, lookupKey key l2 = Some v2 /\ within v1 v2.
Proof.
  induction 1 as [|[k1 w1] [k2 w2] l1 l2 [Hk Hv] _ IH]; cbn [lookupKey].
  - discriminate.
  - cbn in Hk, Hv. subst k2. destruct (k1 =? key).
    + intros [= <-]. now exists w2.
    + exact IH.
Qed.

Lemma lookupKey_In (key : string) (l : list (string * node)) (v : node) :
  lookupKey key l = Some v -> In (key, v) l.
Proof.
  induction l as [|[k w] l IH]; cbn [lookupKey]; [discriminate|].
  destruct (String.eqb_spec k key) as [-> | _].
  - intros [= ->]. now left.
  - intros H. right. now apply IH.
Qed.

Lemma entriesWithin_dropTypeField (l1 l2 : list (string * node)) :
  entriesWithin l1 l2 ->
  entriesWithin (dropTypeField typeField conf1 l1) (dropTypeField typeField conf2 l2).
Proof.
  intros H. unfold dropTypeField. rewrite same_flag.
  destruct (SanitiseConfig.RemoveTypeField conf2); [|exact H].
  exact (entriesWithin_filter (fun k => negb (k =? typeField)) H).
Qed.

Lemma covered_reorder (specs : list FieldSpec.t) (l1 l2 : list (string * node)) :
  entriesWithin l1 l2 ->
  covered (reorder conf1 specs l1) (reorder conf2 specs l2).
Proof.
  intros H k v1 Hin. unfold reorder in *.
  apply in_app_or in Hin. destruct Hin as [Hin | Hin].
  - apply in_flat_map in Hin. destruct Hin as (f & Hf & Hin).
    destruct (retained (SanitiseConfig.Filter conf1) f) eqn:R; [|destruct Hin].
    destruct (lookupKey (FieldSpec.Name f) l1) as [w1|] eqn:L; [|destruct Hin].
    destruct Hin as [[= <- <-] | []].
    destruct (entriesWithin_lookupKey _ H L) as (w2 & L2 & W).
    exists w2. split; [|exact W].
    apply in_or_app. left. apply in_flat_map. exists f. split; [exact Hf|].
    rewrite (retained_weaker _ R), L2. now left.
  - pose proof (entriesWithin_filter
                  (fun key => match findSpec key specs with
                              | Some _ => false
                              | None => true
                              end) H) as HF.
    destruct (entriesWithin_covered HF _ _ Hin) as (v2 & Hin2 & W).
    exists v2. split; [|exact W]. apply in_or_app. now right.
Qed.

Lemma within_refl (n : node) : within n n.
Proof. apply incl_refl. Qed.

Lemma within_sequence (items1 items2 : list node) :
  Forall2 within items1 items2 ->
  within (SequenceNode items1) (SequenceNode items2).
Proof.
  intros H p. cbn [fieldPaths]. rewrite !in_flat_map.
  intros (x & Hx & Hp). revert x Hx Hp.
  induction H as [|a b l1 l2 W _ IH]; intros x Hx Hp; [destruct Hx|].
  destruct Hx as [<- | Hx].
  - exists b. split; [now left | now apply W].
  - destruct (IH x Hx Hp) as (y & Hy & Hq). exists y. split; [now right | exact Hq].
Qed.

(** The walk keeps, under the weaker filter, every field it keeps under
    the stronger one. *)
Lemma sanitiseNode_within (n : node) :
  forall kind specs,
    within (sanitiseNode typeField conf1 kind specs n)
           (sanitiseNode typeField conf2 kind specs n).
Proof.
  induction n as [value | content IH | items IH] using node_nested_ind;
    intros kind specs.
  - destruct kind; apply within_refl.
  - destruct kind; cbn [sanitiseNode]; try apply within_refl.
    + apply covered_within, covered_reorder, entriesWithin_dropTypeField.
      induction IH as [|[k v] content Hv _ IHc]; cbn [map]; constructor;
        [|exact IHc].
      cbn [fst snd] in *. split; [reflexivity|].
      destruct (findSpec k specs); [apply Hv | apply within_refl].
    + apply covered_within, entriesWithin_covered, entriesWithin_dropTypeField.
      induction IH as [|[k v] content Hv _ IHc]; cbn [map]; constructor;
        [|exact IHc].
      cbn [fst snd] in *. split; [reflexivity | apply Hv].
  - destruct kind; cbn [sanitiseNode]; try apply within_refl;
      apply within_sequence;
      (induction IH as [|v items Hv _ IHc]; cbn [map]; constructor;
       [apply Hv | exact IHc]).
Qed.
End Monotone.

Lemma commonFilter_weaker (f : FieldSpec.t) :
  commonFilter f = true -> advancedFilter f = true.
Proof.
  unfold commonFilter, advancedFilter. rewrite andb_true_iff. tauto.
Qed.

(** C2. Every field spec the common filter accepts, the advanced filter
    accepts; and with [SanitiseYAML] as the specification describes it,
    whenever [createOrderedConfig] yields a common view it yields an
    advanced view too, and every field present in the common view is
    present in the advanced view. *)
Theorem common_view_within_advanced_view
    (any : Type) (E : Env any)
    (fieldSpecs : CType -> list FieldSpec.t) (typeField : string)
    (t : CType) (ex : any) :
  (forall f, commonFilter f = true -> advancedFilter f = true)
  /\ forall commonView,
       @createOrderedConfig any
         (withSanitiseYAML E (SanitiseYAML_spec fieldSpecs typeField))
         t ex commonFilter = Ok commonView ->
       exists advancedView,
         @createOrderedConfig any
           (withSanitiseYAML E (SanitiseYAML_spec fieldSpecs typeField))
           t ex advancedFilter = Ok advancedView
         /\ incl (fieldPaths commonView) (fieldPaths advancedView).
Proof.
  split; [exact commonFilter_weaker|].
  intros commonView. unfold createOrderedConfig.
  cbn [withSanitiseYAML yaml_Encode SanitiseYAML].
  destruct (@yaml_Encode any E ex) as [n | err]; [|discriminate].
  unfold SanitiseYAML_spec. intros [= <-]. eexists. split; [reflexivity|].
  apply sanitiseNode_within; [reflexivity | exact commonFilter_weaker].
Qed.

(** ** Block-style serialisation *)

Lemma dedentFrom_indentFrom (text : string) :
  forall atLineStart : bool,
    dedentFrom (if atLineStart then 2 else 0) (indentFrom atLineStart text) = text.
Proof.
  induction text as [|c rest IH]; intros atLineStart; [now destruct atLineStart|].
  destruct atLineStart; cbn [indentFrom append dedentFrom isSpace Ascii.eqb Bool.eqb];
    now rewrite IH.
Qed.

Lemma dedent_indent (text : string) : dedent (indent text) = text.
Proof. exact (dedentFrom_indentFrom text true). Qed.

(** The text of a mapping with the single key [key], unwrapped at [key],
    is the text of the value. *)
Lemma unwrapAt_single_entry (key : string) (n : node) :
  unwrapAt key (blockText (MappingNode [(key, n)])) = Some (blockText n).
Proof.
  unfold unwrapAt. cbn [blockText map concatAll fold_right].
  rewrite append_nil_r.
  destruct n as [value | content | items].
  - change (key ++ ": " ++ value ++ nl) with (key ++ ":" ++ " " ++ value ++ nl).
    rewrite <- append_assoc, strings_CutPrefix_app. reflexivity.
  - rewrite <- append_assoc, strings_CutPrefix_app. cbn [nl append isSpace isNewline].
    cbn. now rewrite dedent_indent.
  - rewrite <- append_assoc, strings_CutPrefix_app.
    cbn. now rewrite dedent_indent.
Qed.

(** C5. With [marshalYAML] as the specification describes it: for every
    type identifier and example value, [genExampleConfigs] with nesting
    returns exactly when it returns without, and each of the two nested
    texts, unwrapped at the key that is the type identifier, is the text
    produced without nesting; when one call panics, so does the other, with
    the same error. *)
Theorem nested_text_unwraps_to_flat_text
    (any : Type) (E : Env any) (t : CType) (ex : any) :
  match @genExampleConfigs any (withMarshalYAML E marshalYAML_spec) t false ex,
        @genExampleConfigs any (withMarshalYAML E marshalYAML_spec) t true ex
  with
  | Returns (common, advanced, _), Returns (nestedCommon, nestedAdvanced, _) =>
      unwrapAt t nestedCommon = Some common
      /\ unwrapAt t nestedAdvanced = Some advanced
  | Panics e, Panics e' => e = e'
  | _, _ => False
  end.
Proof.
  unfold genExampleConfigs, createOrderedConfig.
  cbn [withMarshalYAML yaml_Encode SanitiseYAML marshalYAML].
  destruct (@yaml_Encode any E ex) as [n | err]; [|reflexivity].
  destruct (@SanitiseYAML any E t n (sanitConf advancedFilter)) as [adv | err];
    [|reflexivity].
  destruct (@SanitiseYAML any E t n (sanitConf commonFilter)) as [com | err];
    [|reflexivity].
  cbn [nested marshalYAML_spec].
  split; apply unwrapAt_single_entry.
Qed.

(* ================================================================== *)
(** * The properties at work on the concrete environment *)

Section Runs.
Import Demo.

(** The example of section 8 of the specification. *)
Example section8_views :
  genExampleConfigs "input" false rawABC
  = Returns ("a: 1" ++ nl, "a: 1" ++ nl ++ "b: 2" ++ nl, None).
Proof. reflexivity. Qed.

Example section8_views_nested :
  genExampleConfigs "input" true rawABC
  = Returns ("input:" ++ nl ++ "  a: 1" ++ nl,
             "input:" ++ nl ++ "  a: 1" ++ nl ++ "  b: 2" ++ nl, None).
Proof. reflexivity. Qed.

(** The walk on nested values: the type key and the deprecated field
    go, the fields follow the declared order, the undeclared key comes
    last, and the common view drops every [y]. *)
Example nested_common_view :
  blockText
    (sanitiseNode "type"
       (SanitiseConfig.Build true commonFilter true) KindScalar
       nestedSpecs rawNested)
  = unlines
      [ "o:"; "  x: 2";
        "l:"; "  - x: 2"; "  - x: 2";
        "m:"; "  k1:"; "    x: 2";
        "g:"; "  h: 5";
        "zz: 9" ].
Proof. reflexivity. Qed.

Example nested_advanced_view :
  blockText
    (sanitiseNode "type"
       (SanitiseConfig.Build true advancedFilter true) KindScalar
       nestedSpecs rawNested)
  = unlines
      [ "o:"; "  x: 2"; "  y: 1";
        "l:"; "  - x: 2"; "    y: 1"; "  - x: 2"; "    y: 1";
        "m:"; "  k1:"; "    x: 2"; "    y: 1";
        "g:"; "  h: 5";
        "zz: 9" ].
Proof. reflexivity. Qed.

(** C3, as the claim has it, fails: the encoder rejects the example
    value, and [AsMarkdown] returns no error; it panics. *)
Lemma encoding_error_not_returned :
  yaml_Encode (Unencodable "cannot marshal") = Err "cannot marshal"
  /\ AsMarkdown (component "A summary." EmptyString) false
       (Unencodable "cannot marshal")
     = Panics "cannot marshal"
  /\ ~ exists bytes err,
         AsMarkdown (component "A summary." EmptyString) false
           (Unencodable "cannot marshal")
         = Returns (bytes, Some err).
Proof.
  split; [reflexivity|]. split; [reflexivity|].
  intros (bytes & err & H). discriminate H.
Qed.

Lemma example_failure_panics_witness :
  strings_Contains
    (ComponentSpec.Summary (component "A summary." EmptyString)) (nl ++ nl)
  = false
  /\ yaml_Encode (Unencodable "cannot marshal") = Err "cannot marshal"
  /\ genExampleConfigs
       (ComponentSpec.Type_ (component "A summary." EmptyString)) true
       (Unencodable "cannot marshal")
     = Panics "cannot marshal"
  /\ AsMarkdown (component "A summary." EmptyString) true
       (Unencodable "cannot marshal")
     = Panics "cannot marshal".
Proof.
  split; [reflexivity|]. split; [reflexivity|].
  apply (@example_failure_panics exampleValue env
           (component "A summary." EmptyString) true
           (Unencodable "cannot marshal") "cannot marshal").
  - reflexivity.
  - left. reflexivity.
Defined.

Lemma common_view_within_advanced_view_witness :
  @createOrderedConfig exampleValue
    (withSanitiseYAML env (SanitiseYAML_spec registry "type"))
    "input" rawABC commonFilter
  = Ok (MappingNode [("a", ScalarNode "1")])
  /\ exists advancedView,
       @createOrderedConfig exampleValue
         (withSanitiseYAML env (SanitiseYAML_spec registry "type"))
         "input" rawABC advancedFilter
       = Ok advancedView
       /\ incl (fieldPaths (MappingNode [("a", ScalarNode "1")]))
               (fieldPaths advancedView).
Proof.
  split; [reflexivity|].
  apply (proj2 (@common_view_within_advanced_view exampleValue env
                  registry "type" "input" rawABC)).
  reflexivity.
Defined.

Lemma summary_blank_line_rejected_witness :
  (exists pre post,
      ComponentSpec.Summary (component ("One." ++ nl ++ nl ++ "Two.") "beta")
      = pre ++ (nl ++ nl) ++ post)
  /\ AsMarkdown (component ("One." ++ nl ++ nl ++ "Two.") "beta") true
       (Unencodable "cannot marshal")
     = Returns (EmptyString,
                Some (summaryError
                        (component ("One." ++ nl ++ nl ++ "Two.") "beta"))).
Proof.
  assert (H : exists pre post,
             ComponentSpec.Summary
               (component ("One." ++ nl ++ nl ++ "Two.") "beta")
             = pre ++ (nl ++ nl) ++ post)
    by (exists "One.", "Two."; reflexivity).
  split; [exact H|].
  exact (proj1 (@summary_blank_line_rejected exampleValue env
                  (component ("One." ++ nl ++ nl ++ "Two.") "beta") true
                  (Unencodable "cannot marshal")) H).
Defined.

Lemma template_fields_display_kind_witness :
  strings_Contains
    (ComponentSpec.Summary (component "A summary." EmptyString)) (nl ++ nl)
  = false
  /\ genExampleConfigs
       (ComponentSpec.Type_ (component "A summary." EmptyString)) false rawABC
     = Returns ("a: 1" ++ nl, "a: 1" ++ nl ++ "b: 2" ++ nl, None)
  /\ Forall2
       (fun v w =>
          FieldSpecCtx.FullName w = FieldSpecCtx.FullName v
          /\ FieldSpec.Kind (FieldSpecCtx.Spec w) = KindScalar
          /\ FieldSpec.Type_ (FieldSpecCtx.Spec w) =
               match FieldSpec.Kind (FieldSpecCtx.Spec v) with
               | KindMap => "object"
               | KindArray => "array"
               | Kind2DArray => "two-dimensional array"
               | KindScalar => FieldSpec.Type_ (FieldSpecCtx.Spec v)
               end)
       (FlattenChildrenForDocs
          (ComponentSpec.Config (component "A summary." EmptyString)))
       (componentContext.Fields
          (renderContext (component "A summary." EmptyString)
             ("a: 1" ++ nl) ("a: 1" ++ nl ++ "b: 2" ++ nl))).
Proof.
  split; [reflexivity|]. split; [reflexivity|].
  exact (proj2 (@template_fields_display_kind exampleValue env
                  (component "A summary." EmptyString) false rawABC
                  ("a: 1" ++ nl) ("a: 1" ++ nl ++ "b: 2" ++ nl)
                  eq_refl eq_refl)).
Defined.

(** The type labels the template receives for the six fields of the
    demonstration component. *)
Example display_labels :
  map (fun w => (FieldSpecCtx.FullName w,
                 FieldSpec.Type_ (FieldSpecCtx.Spec w),
                 FieldSpec.Kind (FieldSpecCtx.Spec w)))
      (componentContext.Fields
         (renderContext (component "A summary." EmptyString)
            EmptyString EmptyString))
  = [ ("a", "int", KindScalar); ("b", "int", KindScalar);
      ("c", "int", KindScalar); ("d", "array", KindScalar);
      ("e", "two-dimensional array", KindScalar);
      ("f", "object", KindScalar) ].
Proof. reflexivity. Qed.

End Runs.

(* ================================================================== *)
(** * Further properties of the code *)

(** ** Runs of the template *)

Lemma andThen_then (a b : written) :
  snd a = None -> a >> b = (fst a ++ fst b, snd b).
Proof. destruct a as [out [e|]]; simpl; [discriminate | reflexivity]. Qed.

Lemma andThen_stop (a b : written) (e : error) :
  snd a = Some e -> a >> b = a.
Proof. destruct a as [out [e'|]]; simpl; [reflexivity | discriminate]. Qed.

Lemma andThen_None_inv (a b : written) :
  snd (a >> b) = None ->
  snd a = None /\ snd b = None /\ fst (a >> b) = fst a ++ fst b.
Proof. destruct a as [out [e|]]; simpl; [discriminate | auto]. Qed.

Section TemplateLayout.
Context {any : Type} {E : Env any}.

(** Without fields the sub-template is not run. *)
Lemma Execute_no_fields (ctx : componentContext.t) :
  componentContext.Fields ctx = [] ->
  Execute ctx =
    (beforeConfig ctx ++ configSection ctx ++ descriptionSection ctx ++
     examplesSection ctx ++ footnotesSection ctx, None).
Proof.
  intros H. unfold Execute, componentTemplate. rewrite H. reflexivity.
Qed.

(** With fields, the sub-template is run once: before the examples for up
    to four fields, after them for more. *)
Lemma Execute_fields (ctx : componentContext.t) (out : string) (r : option error) :
  componentContext.Fields ctx <> [] ->
  field_docs ctx = (out, r) ->
  Execute ctx =
    match r with
    | None =>
        (beforeConfig ctx ++ configSection ctx ++ descriptionSection ctx ++
         (if (List.length (componentContext.Fields ctx) <=? 4)%nat
          then (fieldsHeading ++ out) ++ examplesSection ctx
          else examplesSection ctx ++ fieldsHeading ++ out) ++
         footnotesSection ctx, None)
    | Some e =>
        (beforeConfig ctx ++ configSection ctx ++ descriptionSection ctx ++
         (if (List.length (componentContext.Fields ctx) <=? 4)%nat
          then EmptyString else examplesSection ctx) ++
         fieldsHeading ++ out, Some e)
    end.
Proof.
  intros Hne Hdocs. unfold Execute, componentTemplate, fieldsSection.
  rewrite Hdocs. fold fieldsHeading.
  assert (Hpos : (0 <? List.length (componentContext.Fields ctx))%nat = true).
  { destruct (componentContext.Fields ctx); [contradiction | reflexivity]. }
  rewrite Hpos, andb_true_r.
  destruct (Nat.leb_spec (List.length (componentContext.Fields ctx)) 4) as [Hle | Hgt].
  - assert (H4 : (4 <? List.length (componentContext.Fields ctx))%nat = false)
      by (apply Nat.ltb_ge; exact Hle).
    rewrite H4. destruct r as [e|]; cbn.
    + reflexivity.
    + now rewrite !append_assoc.
  - assert (H4 : (4 <? List.length (componentContext.Fields ctx))%nat = true)
      by (apply Nat.ltb_lt; exact Hgt).
    rewrite H4. destruct r as [e|]; cbn.
    + reflexivity.
    + now rewrite !append_assoc.
Qed.

Lemma renderContext_Fields_length (c : ComponentSpec.t) (common advanced : string) :
  List.length (componentContext.Fields (renderContext c common advanced))
  = List.length (FlattenChildrenForDocs (ComponentSpec.Config c)).
Proof.
  cbn [renderContext componentContext.Fields].
  now rewrite displayFields_map, length_map.
Qed.

Lemma renderContext_Fields_nil (c : ComponentSpec.t) (common advanced : string) :
  componentContext.Fields (renderContext c common advanced) = [] <->
  FlattenChildrenForDocs (ComponentSpec.Config c) = [].
Proof.
  rewrite <- !length_zero_iff_nil, renderContext_Fields_length. tauto.
Qed.

(** X1. A component whose configuration flattens to no field never runs
    the field_docs sub-template: once the summary has passed the check and
    the example texts are there, [AsMarkdown] returns a nil error and the
    document made of the five blocks that remain, with no Fields heading,
    whatever field_docs would do. *)
Theorem no_fields_never_runs_field_docs
    (c : ComponentSpec.t) (nest : bool) (ex : any) (common advanced : string) :
  strings_Contains (ComponentSpec.Summary c) (nl ++ nl) = false ->
  genExampleConfigs (ComponentSpec.Type_ c) nest ex
    = Returns (common, advanced, None) ->
  FlattenChildrenForDocs (ComponentSpec.Config c) = [] ->
  AsMarkdown c nest ex =
    Returns
      (beforeConfig (renderContext c common advanced) ++
       configSection (renderContext c common advanced) ++
       descriptionSection (renderContext c common advanced) ++
       examplesSection (renderContext c common advanced) ++
       footnotesSection (renderContext c common advanced),
       None).
Proof.
  intros Hsum G Hnil.
  rewrite (AsMarkdown_returns_Execute c nest ex Hsum G).
  f_equal. apply Execute_no_fields. now apply renderContext_Fields_nil.
Qed.

(** X2. With at least one field and a field_docs run that ends well, the
    Fields section is written exactly once: between the description and
    the examples when there are at most four fields, between the examples
    and the footnotes when there are more. *)
Theorem fields_section_placement
    (c : ComponentSpec.t) (nest : bool) (ex : any) (common advanced out : string) :
  strings_Contains (ComponentSpec.Summary c) (nl ++ nl) = false ->
  genExampleConfigs (ComponentSpec.Type_ c) nest ex
    = Returns (common, advanced, None) ->
  FlattenChildrenForDocs (ComponentSpec.Config c) <> [] ->
  field_docs (renderContext c common advanced) = (out, None) ->
  AsMarkdown c nest ex =
    Returns
      (beforeConfig (renderContext c common advanced) ++
       configSection (renderContext c common advanced) ++
       descriptionSection (renderContext c common advanced) ++
       (if (List.length (FlattenChildrenForDocs (ComponentSpec.Config c)) <=? 4)%nat
        then (fieldsHeading ++ out) ++
             examplesSection (renderContext c common advanced)
        else examplesSection (renderContext c common advanced) ++
             fieldsHeading ++ out) ++
       footnotesSection (renderContext c common advanced),
       None).
Proof.
  intros Hsum G Hne Hdocs.
  rewrite (AsMarkdown_returns_Execute c nest ex Hsum G).
  rewrite <- (renderContext_Fields_length c common advanced).
  f_equal. apply (@Execute_fields _ out None); [|exact Hdocs].
  intros H. apply renderContext_Fields_nil in H. contradiction.
Qed.

(** X3. With at least one field and a field_docs run that stops with an
    error, [AsMarkdown] returns that error together with the bytes written
    up to the stop: nothing follows what field_docs wrote, so the
    footnotes are missing, and with at most four fields the examples
    too. *)
Theorem field_docs_error_returns_partial_document
    (c : ComponentSpec.t) (nest : bool) (ex : any)
    (common advanced out : string) (err : error) :
  strings_Contains (ComponentSpec.Summary c) (nl ++ nl) = false ->
  genExampleConfigs (ComponentSpec.Type_ c) nest ex
    = Returns (common, advanced, None) ->
  FlattenChildrenForDocs (ComponentSpec.Config c) <> [] ->
  field_docs (renderContext c common advanced) = (out, Some err) ->
  AsMarkdown c nest ex =
    Returns
      (beforeConfig (renderContext c common advanced) ++
       configSection (renderContext c common advanced) ++
       descriptionSection (renderContext c common advanced) ++
       (if (List.length (FlattenChildrenForDocs (ComponentSpec.Config c)) <=? 4)%nat
        then EmptyString
        else examplesSection (renderContext c common advanced)) ++
       fieldsHeading ++ out,
       Some err).
Proof.
  intros Hsum G Hne Hdocs.
  rewrite (AsMarkdown_returns_Execute c nest ex Hsum G).
  rewrite <- (renderContext_Fields_length c common advanced).
  f_equal. apply (@Execute_fields _ out (Some err)); [|exact Hdocs].
  intros H. apply renderContext_Fields_nil in H. contradiction.
Qed.
End TemplateLayout.

(** ** When [AsMarkdown] returns an error, panics, or succeeds *)

Section Outcomes.
Context {any : Type} {E : Env any}.

(** X4. [AsMarkdown] returns an error in two situations only: the summary
    holds a blank line, and then no bytes come with the error; or the
    summary is fine, the example texts were generated, the component has
    fields and the field_docs run stopped with this very error, and then
    the bytes are those written up to the stop. *)
Theorem error_return_cases
    (c : ComponentSpec.t) (nest : bool) (ex : any) (bytes : string) (err : error) :
  AsMarkdown c nest ex = Returns (bytes, Some err) ->
  (strings_Contains (ComponentSpec.Summary c) (nl ++ nl) = true
   /\ bytes = EmptyString /\ err = summaryError c)
  \/ (strings_Contains (ComponentSpec.Summary c) (nl ++ nl) = false
      /\ exists common advanced out,
           genExampleConfigs (ComponentSpec.Type_ c) nest ex
             = Returns (common, advanced, None)
           /\ FlattenChildrenForDocs (ComponentSpec.Config c) <> []
           /\ field_docs (renderContext c common advanced) = (out, Some err)
           /\ exists written_before,
                bytes = written_before ++ fieldsHeading ++ out).
Proof.
  unfold AsMarkdown.
  destruct (strings_Contains (ComponentSpec.Summary c) (nl ++ nl)) eqn:Hsum.
  - intros [= <- <-]. left. auto.
  - intros H. right. split; [reflexivity|]. unfold renderChecked in H.
    destruct (genExampleConfigs (ComponentSpec.Type_ c) nest ex)
      as [[[common advanced] [e|]] | p] eqn:G.
    + apply genExampleConfigs_returns_nil_error in G. discriminate G.
    + apply Returns_inj in H. exists common, advanced.
      destruct (componentContext.Fields (renderContext c common advanced)) eqn:HF.
      * rewrite (@Execute_no_fields any E _ HF) in H. discriminate H.
      * assert (Hne : componentContext.Fields (renderContext c common advanced) <> [])
          by (rewrite HF; discriminate).
        destruct (field_docs (renderContext c common advanced)) as [out r] eqn:D.
        rewrite (@Execute_fields any E _ _ _ Hne D) in H. destruct r as [e|]; [|discriminate H].
        pose proof (f_equal fst H) as Hb. pose proof (f_equal snd H) as He.
        cbn [fst snd] in Hb, He. injection He as ->. exists out.
        split; [reflexivity|]. split.
        { intros Hnil. apply Hne. now apply renderContext_Fields_nil. }
        split; [reflexivity|].
        exists (beforeConfig (renderContext c common advanced) ++
                configSection (renderContext c common advanced) ++
                descriptionSection (renderContext c common advanced) ++
                (if (List.length
                       (componentContext.Fields (renderContext c common advanced))
                     <=? 4)%nat
                 then EmptyString
                 else examplesSection (renderContext c common advanced))).
        rewrite <- Hb. now rewrite !append_assoc.
    + discriminate H.
Qed.


(** X5. [AsMarkdown] panics exactly when the summary passes the check and
    [genExampleConfigs] panics, and with the same value: a summary that
    holds a blank line is rejected before the example is looked at, even
    when the example cannot be encoded. *)
Theorem panic_cases (c : ComponentSpec.t) (nest : bool) (ex : any) (p : error) :
  AsMarkdown c nest ex = Panics p <->
  strings_Contains (ComponentSpec.Summary c) (nl ++ nl) = false
  /\ genExampleConfigs (ComponentSpec.Type_ c) nest ex = Panics p.
Proof.
  unfold AsMarkdown, renderChecked.
  destruct (strings_Contains (ComponentSpec.Summary c) (nl ++ nl)).
  - split; [discriminate | intros [H _]; discriminate H].
  - destruct (genExampleConfigs (ComponentSpec.Type_ c) nest ex)
      as [[[common advanced] [e|]] | q].
    + split; [discriminate | intros [_ H]; discriminate H].
    + split; [discriminate | intros [_ H]; discriminate H].
    + split; [intros [= ->]; auto | intros [_ [= ->]]; reflexivity].
Qed.

(** X6. [genExampleConfigs] returns exactly when its four steps succeed:
    both ordered configurations are built and both are serialised. The
    first text it returns is that of the common configuration, the second
    that of the advanced one, and the error is nil. *)
Theorem genExampleConfigs_returns_iff
    (t : CType) (nest : bool) (ex : any)
    (commonText advancedText : string) (err : option error) :
  genExampleConfigs t nest ex = Returns (commonText, advancedText, err) <->
  exists adv com,
    createOrderedConfig t ex advancedFilter = Ok adv
    /\ createOrderedConfig t ex commonFilter = Ok com
    /\ marshalYAML (nested nest t adv) = Ok advancedText
    /\ marshalYAML (nested nest t com) = Ok commonText
    /\ err = None.
Proof.
  unfold genExampleConfigs. split.
  - destruct (createOrderedConfig t ex advancedFilter) as [adv|e1] eqn:Ha;
      [|discriminate].
    destruct (createOrderedConfig t ex commonFilter) as [com|e2] eqn:Hc;
      [|discriminate].
    destruct (marshalYAML (nested nest t adv)) as [a|e3] eqn:Hma; [|discriminate].
    destruct (marshalYAML (nested nest t com)) as [b|e4] eqn:Hmc; [|discriminate].
    intros H. apply Returns_inj in H. exists adv, com.
    repeat split; congruence.
  - intros (adv & com & -> & -> & -> & -> & ->). reflexivity.
Qed.

(** X7. A document [AsMarkdown] returns with a nil error opens with the
    front-matter fence and the title line of the component, and its last
    byte is a line break. *)
Theorem document_frame
    (c : ComponentSpec.t) (nest : bool) (ex : any) (doc : string) :
  AsMarkdown c nest ex = Returns (doc, None) ->
  (exists rest,
      doc = "---" ++ nl ++ "title: " ++ ComponentSpec.Name c ++ nl ++ rest)
  /\ (exists body, doc = body ++ nl).
Proof.
  unfold AsMarkdown.
  destruct (strings_Contains (ComponentSpec.Summary c) (nl ++ nl));
    [discriminate|].
  unfold renderChecked.
  destruct (genExampleConfigs (ComponentSpec.Type_ c) nest ex)
    as [[[common advanced] [e|]] | p]; try discriminate.
  intros H. apply Returns_inj in H.
  assert (Hdoc : fst (Execute (renderContext c common advanced)) = doc)
    by now rewrite H.
  assert (Hok : snd (Execute (renderContext c common advanced)) = None)
    by now rewrite H.
  clear H. split.
  - destruct (Execute_starts (renderContext c common advanced)) as [rest R].
    rewrite R in Hdoc. rewrite <- Hdoc.
    unfold beforeConfig, frontMatter. cbn [renderContext componentContext.Name].
    rewrite !append_assoc. cbn [append]. eexists. reflexivity.
  - unfold Execute, componentTemplate in Hdoc, Hok.
    repeat match type of Hok with
           | snd (?a >> ?b) = None =>
               let Ha := fresh "Ha" in
               let Hb := fresh "Hb" in
               let Hf := fresh "Hf" in
               destruct (andThen_None_inv a b Hok) as (Ha & Hb & Hf);
               rewrite Hf in Hdoc; clear Hf Hok; rename Hb into Hok
           end.
    rewrite <- Hdoc. cbn [emit fst]. unfold footnotesSection.
    eexists. rewrite <- !append_assoc. reflexivity.
Qed.
End Outcomes.

(** ** The context handed to the template *)

Section Context_.
Context {any : Type} {E : Env any}.

(** X8. The loop over the flattened fields keeps their number and their
    order, and changes nothing but [Type] and [Kind]: the full name, the
    name, both flags and the children of every field reach the template as
    [FlattenChildrenForDocs] returned them. *)
Theorem display_loop_keeps_the_rest (flattenedFields : list FieldSpecCtx.t) :
  List.length (displayFields flattenedFields) = List.length flattenedFields
  /\ Forall2
       (fun v w =>
          FieldSpecCtx.FullName w = FieldSpecCtx.FullName v
          /\ FieldSpec.Name (FieldSpecCtx.Spec w) = FieldSpec.Name (FieldSpecCtx.Spec v)
          /\ FieldSpec.IsAdvanced (FieldSpecCtx.Spec w)
             = FieldSpec.IsAdvanced (FieldSpecCtx.Spec v)
          /\ FieldSpec.IsDeprecated (FieldSpecCtx.Spec w)
             = FieldSpec.IsDeprecated (FieldSpecCtx.Spec v)
          /\ FieldSpec.Children (FieldSpecCtx.Spec w)
             = FieldSpec.Children (FieldSpecCtx.Spec v))
       flattenedFields (displayFields flattenedFields).
Proof.
  rewrite displayFields_map. split; [apply length_map|].
  induction flattenedFields as [|v l IH]; simpl map; constructor;
    [cbn; auto | exact IH].
Qed.

Lemma displayField_idempotent (v : FieldSpecCtx.t) :
  displayField (displayField v) = displayField v.
Proof.
  destruct v as [fullName [name ty kind adv dep children]].
  destruct kind; reflexivity.
Qed.

(** X9. The loop is idempotent: fields that went through it once come out
    of a second pass unchanged, so a label such as "array" is never
    relabelled. *)
Theorem display_loop_idempotent (flattenedFields : list FieldSpecCtx.t) :
  displayFields (displayFields flattenedFields) = displayFields flattenedFields.
Proof.
  rewrite !displayFields_map, map_map.
  apply map_ext. exact displayField_idempotent.
Qed.

Lemma dropLeadingNewline_keeps (s : string) :
  strings_HasPrefix s nl = false -> dropLeadingNewline s = s.
Proof.
  destruct s as [|ch s]; [reflexivity|].
  unfold nl. cbn [strings_HasPrefix dropLeadingNewline].
  rewrite Ascii.eqb_sym. destruct s; rewrite andb_true_r; now intros ->.
Qed.

(** X10. One line break in front of the description, or in front of the
    footnotes, makes no difference: for a text that does not itself open
    with a line break, [AsMarkdown] ends alike on the text and on the text
    with a line break put in front. *)
Theorem leading_line_break_is_dropped
    (c : ComponentSpec.t) (text : string) (nest : bool) (ex : any) :
  strings_HasPrefix text nl = false ->
  AsMarkdown (withDescription c (nl ++ text)) nest ex
    = AsMarkdown (withDescription c text) nest ex
  /\ AsMarkdown (withFootnotes c (nl ++ text)) nest ex
     = AsMarkdown (withFootnotes c text) nest ex.
Proof.
  intros H. pose proof (dropLeadingNewline_keeps text H) as K.
  assert (D : forall common advanced,
             renderContext (withDescription c (nl ++ text)) common advanced
             = renderContext (withDescription c text) common advanced).
  { intros. unfold renderContext. cbn [withDescription ComponentSpec.Name
      ComponentSpec.Type_ ComponentSpec.Status ComponentSpec.Summary
      ComponentSpec.Description ComponentSpec.Categories ComponentSpec.Footnotes
      ComponentSpec.Config ComponentSpec.Examples ComponentSpec.Version].
    rewrite K. reflexivity. }
  assert (F : forall common advanced,
             renderContext (withFootnotes c (nl ++ text)) common advanced
             = renderContext (withFootnotes c text) common advanced).
  { intros. unfold renderContext. cbn [withFootnotes ComponentSpec.Name
      ComponentSpec.Type_ ComponentSpec.Status ComponentSpec.Summary
      ComponentSpec.Description ComponentSpec.Categories ComponentSpec.Footnotes
      ComponentSpec.Config ComponentSpec.Examples ComponentSpec.Version].
    rewrite K. reflexivity. }
  split; unfold AsMarkdown, renderChecked;
    cbn [withDescription withFootnotes ComponentSpec.Summary ComponentSpec.Type_].
  - change (summaryError (withDescription c (nl ++ text)))
      with (summaryError (withDescription c text)).
    destruct (strings_Contains (ComponentSpec.Summary c) (nl ++ nl)); [reflexivity|].
    destruct (genExampleConfigs (ComponentSpec.Type_ c) nest ex)
      as [[[common advanced] [e|]] | p]; try reflexivity.
    now rewrite D.
  - change (summaryError (withFootnotes c (nl ++ text)))
      with (summaryError (withFootnotes c text)).
    destruct (strings_Contains (ComponentSpec.Summary c) (nl ++ nl)); [reflexivity|].
    destruct (genExampleConfigs (ComponentSpec.Type_ c) nest ex)
      as [[[common advanced] [e|]] | p]; try reflexivity.
    now rewrite F.
Qed.

Lemma categoriesText_swallows (categories : list string) :
  (categories = [] \/ exists e, json_Marshal categories = Err e) ->
  categoriesText categories = EmptyString.
Proof.
  intros [-> | [e H]]; [reflexivity|].
  unfold categoriesText. destruct categories; [reflexivity | now rewrite H].
Qed.

(** X11. A component without categories, and one whose categories
    [json.Marshal] fails to encode, are rendered alike: the error is
    dropped, and the front matter holds the title, type and status lines
    only, with no categories line and no description line. *)
Theorem front_matter_without_categories
    (c : ComponentSpec.t) (nest : bool) (ex : any) (common advanced : string) :
  strings_Contains (ComponentSpec.Summary c) (nl ++ nl) = false ->
  genExampleConfigs (ComponentSpec.Type_ c) nest ex
    = Returns (common, advanced, None) ->
  (ComponentSpec.Categories c = []
   \/ exists e, json_Marshal (ComponentSpec.Categories c) = Err e) ->
  exists rest err,
    AsMarkdown c nest ex =
      Returns
        ("---" ++ nl ++
         "title: " ++ ComponentSpec.Name c ++ nl ++
         "type: " ++ ComponentSpec.Type_ c ++ nl ++
         "status: " ++
         componentContext.Status (renderContext c common advanced) ++ nl ++
         "---" ++ nl ++
         banner ++ rest,
         err).
Proof.
  intros Hsum G Hcat.
  rewrite (AsMarkdown_returns_Execute c nest ex Hsum G).
  destruct (Execute_starts (renderContext c common advanced)) as [rest R].
  exists (statusAdmonition (renderContext c common advanced) ++
          summarySection (renderContext c common advanced) ++
          configSection (renderContext c common advanced) ++ rest),
         (snd (Execute (renderContext c common advanced))).
  f_equal. rewrite (surjective_pairing (Execute _)). f_equal.
  rewrite R. unfold beforeConfig, frontMatter.
  cbn [renderContext componentContext.Name componentContext.Type_
       componentContext.FrontMatterSummary componentContext.Categories].
  rewrite (categoriesText_swallows Hcat).
  cbn [nonEmpty String.length Nat.ltb Nat.leb whenText].
  rewrite !append_assoc. cbn [append]. reflexivity.
Qed.

(** X12. The template writes a status admonition for the statuses beta,
    experimental and deprecated, spelled exactly so, and for no other
    status. *)
Theorem status_admonition_iff (ctx : componentContext.t) :
  statusAdmonition ctx = EmptyString <->
  componentContext.Status ctx <> "beta"
  /\ componentContext.Status ctx <> "experimental"
  /\ componentContext.Status ctx <> "deprecated".
Proof.
  unfold statusAdmonition.
  destruct (String.eqb_spec (componentContext.Status ctx) "beta") as [-> | Hb].
  - cbn. split; [discriminate | intros [H _]; now elim H].
  - destruct (String.eqb_spec (componentContext.Status ctx) "experimental")
      as [-> | He].
    + cbn. split; [discriminate | intros (_ & H & _); now elim H].
    + destruct (String.eqb_spec (componentContext.Status ctx) "deprecated")
        as [-> | Hd].
      * cbn. split; [discriminate | intros (_ & _ & H); now elim H].
      * cbn. split; auto.
Qed.

(** X13. When the two ordered configurations are the same node, the two
    texts are the same text and the document shows it once: the bytes
    [AsMarkdown] returns are the text that precedes the config block, the
    single code block that holds the text, and the rest of the document,
    with no tabs, with or without nesting. *)
Theorem equal_configs_give_single_block
    (c : ComponentSpec.t) (nest : bool) (ex : any) (cfg : node) (text : string) :
  strings_Contains (ComponentSpec.Summary c) (nl ++ nl) = false ->
  createOrderedConfig (ComponentSpec.Type_ c) ex advancedFilter = Ok cfg ->
  createOrderedConfig (ComponentSpec.Type_ c) ex commonFilter = Ok cfg ->
  marshalYAML (nested nest (ComponentSpec.Type_ c) cfg) = Ok text ->
  genExampleConfigs (ComponentSpec.Type_ c) nest ex = Returns (text, text, None)
  /\ AsMarkdown c nest ex =
       Returns
         (emit
            (beforeConfig (renderContext c EmptyString EmptyString) ++
             ("```yml" ++ nl ++
              "# Config fields, showing default values" ++ nl ++
              text ++
              "```" ++ nl))
          >> afterConfig (renderContext c text text)).
Proof.
  intros Hsum Ha Hc Hm.
  assert (G : genExampleConfigs (ComponentSpec.Type_ c) nest ex
              = Returns (text, text, None)).
  { unfold genExampleConfigs. now rewrite Ha, Hc, Hm. }
  split; [exact G|].
  rewrite (AsMarkdown_document c nest ex Hsum G).
  do 3 f_equal. unfold configSection.
  cbn [renderContext componentContext.CommonConfig componentContext.AdvancedConfig].
  now rewrite String.eqb_refl.
Qed.
End Context_.

(** ** The further properties at work on the concrete environments *)

Section FurtherRuns.
Import Demo Cases.

Lemma no_fields_never_runs_field_docs_witness :
  strings_Contains (ComponentSpec.Summary plain) (nl ++ nl) = false
  /\ @genExampleConfigs _ envFailingFieldDocs (ComponentSpec.Type_ plain) false rawA
     = Returns ("a: 1" ++ nl, "a: 1" ++ nl, None)
  /\ @FlattenChildrenForDocs _ envFailingFieldDocs (ComponentSpec.Config plain) = []
  /\ @AsMarkdown _ envFailingFieldDocs plain false rawA =
       Returns
         (beforeConfig
            (@renderContext _ envFailingFieldDocs plain ("a: 1" ++ nl) ("a: 1" ++ nl)) ++
          configSection
            (@renderContext _ envFailingFieldDocs plain ("a: 1" ++ nl) ("a: 1" ++ nl)) ++
          descriptionSection
            (@renderContext _ envFailingFieldDocs plain ("a: 1" ++ nl) ("a: 1" ++ nl)) ++
          examplesSection
            (@renderContext _ envFailingFieldDocs plain ("a: 1" ++ nl) ("a: 1" ++ nl)) ++
          footnotesSection
            (@renderContext _ envFailingFieldDocs plain ("a: 1" ++ nl) ("a: 1" ++ nl)),
          None).
Proof.
  split; [reflexivity|]. split; [reflexivity|]. split; [reflexivity|].
  apply (@no_fields_never_runs_field_docs _ envFailingFieldDocs plain false rawA
           ("a: 1" ++ nl) ("a: 1" ++ nl)); reflexivity.
Defined.

Lemma fields_section_placement_witness :
  strings_Contains (ComponentSpec.Summary small) (nl ++ nl) = false
  /\ genExampleConfigs (ComponentSpec.Type_ small) true rawABC
     = Returns ("input:" ++ nl ++ "  a: 1" ++ nl,
                "input:" ++ nl ++ "  a: 1" ++ nl ++ "  b: 2" ++ nl, None)
  /\ FlattenChildrenForDocs (ComponentSpec.Config small) <> []
  /\ exists rest,
       AsMarkdown small true rawABC =
         Returns
           (beforeConfig
              (renderContext small ("input:" ++ nl ++ "  a: 1" ++ nl)
                 ("input:" ++ nl ++ "  a: 1" ++ nl ++ "  b: 2" ++ nl)) ++
            rest,
            None).
Proof.
  split; [reflexivity|]. split; [reflexivity|]. split; [discriminate|].
  eexists.
  apply (@fields_section_placement _ env small true rawABC
           ("input:" ++ nl ++ "  a: 1" ++ nl)
           ("input:" ++ nl ++ "  a: 1" ++ nl ++ "  b: 2" ++ nl)
           (fst (field_docs
                   (renderContext small ("input:" ++ nl ++ "  a: 1" ++ nl)
                      ("input:" ++ nl ++ "  a: 1" ++ nl ++ "  b: 2" ++ nl)))));
    [reflexivity | reflexivity | discriminate | reflexivity].
Defined.

Lemma field_docs_error_returns_partial_document_witness :
  strings_Contains (ComponentSpec.Summary (component "A summary." "beta"))
    (nl ++ nl) = false
  /\ @genExampleConfigs _ envFailingFieldDocs
       (ComponentSpec.Type_ (component "A summary." "beta")) false rawABC
     = Returns ("a: 1" ++ nl, "a: 1" ++ nl ++ "b: 2" ++ nl, None)
  /\ @field_docs _ envFailingFieldDocs
       (@renderContext _ envFailingFieldDocs (component "A summary." "beta")
          ("a: 1" ++ nl) ("a: 1" ++ nl ++ "b: 2" ++ nl))
     = ("### ", Some "template: field_docs: error")
  /\ @AsMarkdown _ envFailingFieldDocs (component "A summary." "beta") false rawABC
     = Returns
         (beforeConfig
            (@renderContext _ envFailingFieldDocs (component "A summary." "beta")
               ("a: 1" ++ nl) ("a: 1" ++ nl ++ "b: 2" ++ nl)) ++
          configSection
            (@renderContext _ envFailingFieldDocs (component "A summary." "beta")
               ("a: 1" ++ nl) ("a: 1" ++ nl ++ "b: 2" ++ nl)) ++
          descriptionSection
            (@renderContext _ envFailingFieldDocs (component "A summary." "beta")
               ("a: 1" ++ nl) ("a: 1" ++ nl ++ "b: 2" ++ nl)) ++
          examplesSection
            (@renderContext _ envFailingFieldDocs (component "A summary." "beta")
               ("a: 1" ++ nl) ("a: 1" ++ nl ++ "b: 2" ++ nl)) ++
          fieldsHeading ++ "### ",
          Some "template: field_docs: error").
Proof.
  split; [reflexivity|]. split; [reflexivity|]. split; [reflexivity|].
  apply (@field_docs_error_returns_partial_document _ envFailingFieldDocs
           (component "A summary." "beta") false rawABC
           ("a: 1" ++ nl) ("a: 1" ++ nl ++ "b: 2" ++ nl) "### "
           "template: field_docs: error");
    [reflexivity | reflexivity | discriminate | reflexivity].
Defined.

Lemma error_return_cases_witness :
  @AsMarkdown _ envFailingFieldDocs (component "A summary." "beta") false rawABC
  = Returns
      (fst (@Execute _ envFailingFieldDocs
              (@renderContext _ envFailingFieldDocs (component "A summary." "beta")
                 ("a: 1" ++ nl) ("a: 1" ++ nl ++ "b: 2" ++ nl))),
       Some "template: field_docs: error")
  /\ ((strings_Contains (ComponentSpec.Summary (component "A summary." "beta"))
         (nl ++ nl) = true
       /\ fst (@Execute _ envFailingFieldDocs
                 (@renderContext _ envFailingFieldDocs
                    (component "A summary." "beta")
                    ("a: 1" ++ nl) ("a: 1" ++ nl ++ "b: 2" ++ nl)))
          = EmptyString
       /\ "template: field_docs: error"
          = summaryError (component "A summary." "beta"))
      \/ (strings_Contains (ComponentSpec.Summary (component "A summary." "beta"))
            (nl ++ nl) = false
          /\ exists common advanced out,
               @genExampleConfigs _ envFailingFieldDocs
                 (ComponentSpec.Type_ (component "A summary." "beta")) false rawABC
               = Returns (common, advanced, None)
               /\ @FlattenChildrenForDocs _ envFailingFieldDocs
                    (ComponentSpec.Config (component "A summary." "beta")) <> []
               /\ @field_docs _ envFailingFieldDocs
                    (@renderContext _ envFailingFieldDocs
                       (component "A summary." "beta") common advanced)
                  = (out, Some "template: field_docs: error")
               /\ exists written_before,
                    fst (@Execute _ envFailingFieldDocs
                           (@renderContext _ envFailingFieldDocs
                              (component "A summary." "beta")
                              ("a: 1" ++ nl) ("a: 1" ++ nl ++ "b: 2" ++ nl)))
                    = written_before ++ fieldsHeading ++ out)).
Proof.
  split; [reflexivity|].
  apply (@error_return_cases _ envFailingFieldDocs
           (component "A summary." "beta") false rawABC).
  reflexivity.
Defined.

Lemma document_frame_witness :
  AsMarkdown small true rawABC
  = Returns
      (fst (Execute
              (renderContext small ("input:" ++ nl ++ "  a: 1" ++ nl)
                 ("input:" ++ nl ++ "  a: 1" ++ nl ++ "  b: 2" ++ nl))),
       None)
  /\ (exists rest,
         fst (Execute
                (renderContext small ("input:" ++ nl ++ "  a: 1" ++ nl)
                   ("input:" ++ nl ++ "  a: 1" ++ nl ++ "  b: 2" ++ nl)))
         = "---" ++ nl ++ "title: " ++ ComponentSpec.Name small ++ nl ++ rest)
  /\ (exists body,
         fst (Execute
                (renderContext small ("input:" ++ nl ++ "  a: 1" ++ nl)
                   ("input:" ++ nl ++ "  a: 1" ++ nl ++ "  b: 2" ++ nl)))
         = body ++ nl).
Proof.
  split; [reflexivity|].
  apply (@document_frame _ env small true rawABC). reflexivity.
Defined.

Lemma leading_line_break_is_dropped_witness :
  strings_HasPrefix "Reads files." nl = false
  /\ AsMarkdown (withDescription plain (nl ++ "Reads files.")) false rawA
     = AsMarkdown (withDescription plain "Reads files.") false rawA
  /\ AsMarkdown (withFootnotes plain (nl ++ "Reads files.")) false rawA
     = AsMarkdown (withFootnotes plain "Reads files.") false rawA.
Proof.
  split; [reflexivity|].
  apply (@leading_line_break_is_dropped _ env plain "Reads files." false rawA).
  reflexivity.
Defined.

Lemma front_matter_without_categories_witness :
  strings_Contains (ComponentSpec.Summary (component "A summary." EmptyString))
    (nl ++ nl) = false
  /\ @genExampleConfigs _ envFailingJSON
       (ComponentSpec.Type_ (component "A summary." EmptyString)) false rawABC
     = Returns ("a: 1" ++ nl, "a: 1" ++ nl ++ "b: 2" ++ nl, None)
  /\ (exists e,
         @json_Marshal _ envFailingJSON
           (ComponentSpec.Categories (component "A summary." EmptyString))
         = Err e)
  /\ exists rest err,
       @AsMarkdown _ envFailingJSON (component "A summary." EmptyString) false rawABC
       = Returns
           ("---" ++ nl ++
            "title: " ++ ComponentSpec.Name (component "A summary." EmptyString) ++ nl ++
            "type: " ++ ComponentSpec.Type_ (component "A summary." EmptyString) ++ nl ++
            "status: " ++
            componentContext.Status
              (@renderContext _ envFailingJSON (component "A summary." EmptyString)
                 ("a: 1" ++ nl) ("a: 1" ++ nl ++ "b: 2" ++ nl)) ++ nl ++
            "---" ++ nl ++
            banner ++ rest,
            err).
Proof.
  split; [reflexivity|]. split; [reflexivity|].
  split; [exists "json: unsupported value"; reflexivity|].
  apply (@front_matter_without_categories _ envFailingJSON
           (component "A summary." EmptyString) false rawABC
           ("a: 1" ++ nl) ("a: 1" ++ nl ++ "b: 2" ++ nl));
    [reflexivity | reflexivity |].
  right. exists "json: unsupported value". reflexivity.
Defined.

(** The document of the component without fields: the status Beta, with
    a capital, gets no admonition, the leading line break of the
    footnotes is gone, and no Fields heading is written. *)
Example plain_document :
  AsMarkdown plain false rawA
  = Returns
      (unlines
         [ "---"; "title: plain"; "type: processor"; "status: Beta"; "---" ] ++
       banner ++
       unlines
         [ "Does nothing."; EmptyString; "Introduced in version 1.0.0.";
           EmptyString ] ++
       singleConfigBlock ("a: 1" ++ nl) ++
       unlines [ EmptyString; "Nothing at all."; EmptyString ] ++
       unlines
         [ "## Examples"; EmptyString;
           "<Tabs defaultValue=" ++ dquote ++ "First" ++ dquote ++ " values={[";
           "{ label: 'First', value: 'First', },";
           "]}>"; EmptyString;
           "<TabItem value=" ++ dquote ++ "First" ++ dquote ++ ">"; EmptyString;
           "An example."; EmptyString;
           backticks ++ "yaml"; "a: 1"; backticks; EmptyString;
           "</TabItem>"; "</Tabs>"; EmptyString ] ++
       unlines [ "## Notes"; EmptyString ],
       None).
Proof. reflexivity. Qed.



Lemma empty_status_renders_stable_witness :
  StatusStable = "stable"
  /\ strings_Contains
       (ComponentSpec.Summary (component "A summary." EmptyString)) (nl ++ nl)
     = false
  /\ genExampleConfigs
       (ComponentSpec.Type_ (component "A summary." EmptyString)) true rawABC
     = Returns ("input:" ++ nl ++ "  a: 1" ++ nl,
                "input:" ++ nl ++ "  a: 1" ++ nl ++ "  b: 2" ++ nl, None)
  /\ ComponentSpec.Status (component "A summary." EmptyString) = EmptyString
  /\ AsMarkdown (component "A summary." EmptyString) true rawABC
     = Returns
         (unlines
            [ "---"; "title: demo"; "type: input"; "status: stable";
              "categories: [" ++ dquote ++ "Utility" ++ dquote ++ "]"; "---" ] ++
          banner ++
          unlines [ "A summary."; EmptyString ] ++
          configTabs ("input:" ++ nl ++ "  a: 1" ++ nl)
            ("input:" ++ nl ++ "  a: 1" ++ nl ++ "  b: 2" ++ nl) ++
          unlines [ EmptyString; "A demonstration."; EmptyString ] ++
          fieldsHeading ++
          concatAll
            (map fieldDoc
               (displayFields
                  (FlattenChildrenForDocs
                     (ComponentSpec.Config (component "A summary." EmptyString))))) ++
          nl,
          None).
Proof.
  split; [reflexivity|]. split; [reflexivity|]. split; [reflexivity|].
  split; [reflexivity|].
  exact (proj1 (proj2 (@empty_status_renders_stable _ env
                         (component "A summary." EmptyString) true rawABC
                         ("input:" ++ nl ++ "  a: 1" ++ nl)
                         ("input:" ++ nl ++ "  a: 1" ++ nl ++ "  b: 2" ++ nl)
                         eq_refl)
                      eq_refl eq_refl)
               eq_refl).
Defined.

Lemma config_block_single_or_tabs_witness :
  strings_Contains (ComponentSpec.Summary small) (nl ++ nl) = false
  /\ genExampleConfigs (ComponentSpec.Type_ small) false rawABC
     = Returns ("a: 1" ++ nl, "a: 1" ++ nl ++ "b: 2" ++ nl, None)
  /\ "a: 1" ++ nl <> "a: 1" ++ nl ++ "b: 2" ++ nl
  /\ AsMarkdown small false rawABC
     = Returns
         (unlines
            [ "---"; "title: small"; "type: input"; "status: experimental";
              "categories: [" ++ dquote ++ "Utility" ++ dquote ++ "," ++
                dquote ++ "Local" ++ dquote ++ "]";
              "---" ] ++
          banner ++
          unlines
            [ ":::caution EXPERIMENTAL";
              "This component is experimental and therefore subject to change or removal outside of major version releases.";
              ":::";
              EmptyString;
              EmptyString;
              "<Tabs defaultValue=" ++ dquote ++ "common" ++ dquote ++ " values={[";
              "  { label: 'Common', value: 'common', },";
              "  { label: 'Advanced', value: 'advanced', },";
              "]}>";
              EmptyString;
              "<TabItem value=" ++ dquote ++ "common" ++ dquote ++ ">";
              EmptyString;
              "```yml";
              "# Common config fields, showing default values";
              "a: 1";
              "```";
              EmptyString;
              "</TabItem>";
              "<TabItem value=" ++ dquote ++ "advanced" ++ dquote ++ ">";
              EmptyString;
              "```yml";
              "# All config fields, showing default values";
              "a: 1";
              "b: 2";
              "```";
              EmptyString;
              "</TabItem>";
              "</Tabs>";
              EmptyString;
              "## Fields";
              EmptyString;
              "### `x`"; EmptyString; "Type: `int`"; EmptyString;
              "### `y`"; EmptyString; "Type: `int`"; EmptyString;
              EmptyString ],
          None).
Proof.
  split; [reflexivity|]. split; [reflexivity|]. split; [discriminate|].
  exact (proj2 (@config_block_single_or_tabs _ env small false rawABC
                  ("a: 1" ++ nl) ("a: 1" ++ nl ++ "b: 2" ++ nl)
                  eq_refl eq_refl)
               ltac:(discriminate)).
Defined.

Lemma equal_configs_give_single_block_witness :
  strings_Contains (ComponentSpec.Summary plain) (nl ++ nl) = false
  /\ createOrderedConfig (ComponentSpec.Type_ plain) rawA advancedFilter
     = Ok (MappingNode [ ("a", ScalarNode "1") ])
  /\ createOrderedConfig (ComponentSpec.Type_ plain) rawA commonFilter
     = Ok (MappingNode [ ("a", ScalarNode "1") ])
  /\ marshalYAML
       (nested true (ComponentSpec.Type_ plain) (MappingNode [ ("a", ScalarNode "1") ]))
     = Ok ("processor:" ++ nl ++ "  a: 1" ++ nl)
  /\ genExampleConfigs (ComponentSpec.Type_ plain) true rawA
     = Returns ("processor:" ++ nl ++ "  a: 1" ++ nl,
                "processor:" ++ nl ++ "  a: 1" ++ nl, None)
  /\ AsMarkdown plain true rawA
     = Returns
         (unlines
            [ "---"; "title: plain"; "type: processor"; "status: Beta"; "---" ] ++
          banner ++
          unlines
            [ "Does nothing."; EmptyString; "Introduced in version 1.0.0.";
              EmptyString;
              "```yml";
              "# Config fields, showing default values";
              "processor:";
              "  a: 1";
              "```";
              EmptyString; "Nothing at all."; EmptyString;
              "## Examples"; EmptyString;
              "<Tabs defaultValue=" ++ dquote ++ "First" ++ dquote ++ " values={[";
              "{ label: 'First', value: 'First', },";
              "]}>"; EmptyString;
              "<TabItem value=" ++ dquote ++ "First" ++ dquote ++ ">"; EmptyString;
              "An example."; EmptyString;
              "```yaml"; "a: 1"; "```"; EmptyString;
              "</TabItem>"; "</Tabs>"; EmptyString;
              "## Notes"; EmptyString ],
          None).
Proof.
  split; [reflexivity|]. split; [reflexivity|]. split; [reflexivity|].
  split; [reflexivity|].
  apply (@equal_configs_give_single_block _ env plain true rawA
           (MappingNode [ ("a", ScalarNode "1") ])
           ("processor:" ++ nl ++ "  a: 1" ++ nl)); reflexivity.
Defined.
End FurtherRuns.
